(** * Offer negotiation of the order serializer

    A shallow embedding of [backend/order/serializers.py]: the module
    constants [available] and [sold] and the three methods [validate],
    [create] and [update] of [OrderSerializer], over a store holding the
    [Product] and [Order] tables. *)

From Stdlib Require Import ZArith String.
From stdpp Require Import base decidable option gmap strings.

Open Scope string_scope.

(** ** Data model *)

(** Primary keys of rows; vendors (sellers and buyers alike) are only ever
    compared, so a vendor is represented by its key. *)
Abbreviation Pk := nat.

(** Modelled from the spec: the [Order] model and its [status] choices are
    declared in [order/models.py]; the spec (section 3) gives the status enum
    as exactly these six values. *)
Inductive Status :=
  | OFFERED | DENIED | PENDING | PROCESSING | ACCEPTED | COMPLETED.

#[global] Instance Status_eq_dec : EqDecision Status.
Proof. solve_decision. Defined.

(** serializers.py, lines 12 and 13. *)
Definition available : list Status := [OFFERED; DENIED; PENDING].
Definition sold : list Status := [PROCESSING; ACCEPTED; COMPLETED].

(** Prices and amounts are the decimals of a [DecimalField]; they are kept
    as integers, in hundredths.  The source never compares two decimals: it
    compares their casts with [float], the binary64 numbers nearest to
    them. *)
Definition decimal_scale : Z := 100.
Definition scale_bits : Z := Z.log2 decimal_scale + 1.

(** The quotient of [N] by [M] rounded to the nearest integer, a tie going to
    the even one. *)
Definition rne (N M : Z) : Z :=
  let k := (N / M)%Z in
  let r := (N mod M)%Z in
  if (2 * r <? M)%Z then k
  else if (M <? 2 * r)%Z then (k + 1)%Z
  else if Z.even k then k else (k + 1)%Z.

(** [float] of a positive decimal of [c] hundredths: the value [c / 100] is
    rounded to 53 significant bits, and from [2 ^ 1024] on the cast is
    infinite.  The result is given in units of [2 ^ -(scale_bits + 52)], of
    which every cast of a decimal is a multiple, so that casts compare as
    the integers do. *)
Definition float_pos (c : Z) : Z :=
  let w := Z.log2 (c * 2 ^ scale_bits / decimal_scale) in
  Z.min (2 ^ w * rne (c * 2 ^ (scale_bits + 52)) (decimal_scale * 2 ^ w))
        (2 ^ (1024 + scale_bits + 52)).

(** [float(d)] for the decimal [d] of [c] hundredths. *)
Definition float (c : Z) : Z :=
  match c with
  | Z0 => 0%Z
  | Zpos _ => float_pos c
  | Zneg _ => (- float_pos (- c))%Z
  end.

(** A row of the product table. *)
Record Product := mkProduct {
  p_price : Z;
  p_is_available : bool;
  p_seller : Pk
}.

(** A row of the order table; [o_product] is the foreign key. *)
Record Order := mkOrder {
  o_product : Pk;
  o_buyer : Pk;
  o_vendor : Pk;
  o_status : Status;
  o_amount : Z
}.

Definition set_is_available (b : bool) (p : Product) : Product :=
  mkProduct (p_price p) b (p_seller p).
Definition set_status (st : Status) (o : Order) : Order :=
  mkOrder (o_product o) (o_buyer o) (o_vendor o) st (o_amount o).
Definition set_amount (a : Z) (o : Order) : Order :=
  mkOrder (o_product o) (o_buyer o) (o_vendor o) (o_status o) a.

(** The two tables.  A model instance in the source is a row together with
    its primary key: a pair [(pk, row)]. *)
Record DB := mkDB {
  Product_objects : gmap nat Product;
  Order_objects : gmap nat Order
}.

(** The dictionary handed to [validate], [create] and [update]: every key may
    be absent.  The relation fields hold resolved instances. *)
Record Data := mkData {
  d_product : option (Pk * Product);
  d_buyer : option Pk;
  d_status : option Status;
  d_amount : option Z
}.

(** ** Exceptions and the store monad *)

Inductive Detail :=
  | AlreadyInOrders          (* "This product is already in your orders." *)
  | OfferTooHigh (price : Z) (* "Your offer must not be greater than ..." *).

Inductive Exn :=
  | MethodNotAllowed (message : Detail)
  | NotFound          (* "This product is no longer available." *)
  | KeyError (key : string)
  | AttributeError
  | DoesNotExist
  | ValidationError
  | Http404.

(** The error kinds of the spec (section 7); an exception that is none of
    them is not caught by the serializer. *)
Inductive ErrorKind := Conflict | NotFoundKind.

Definition error_kind (e : Exn) : option ErrorKind :=
  match e with
  | MethodNotAllowed _ => Some Conflict
  | NotFound => Some NotFoundKind
  | _ => None
  end.

(** A computation reads and writes the store and either returns or raises;
    what was written before an exception stays written. *)
Definition M (A : Type) : Type := DB → (Exn + A) * DB.

#[global] Instance M_ret : MRet M := λ A x db, (inr x, db).
#[global] Instance M_bind : MBind M := λ A B f m db,
  match m db with
  | (inl e, db') => (inl e, db')
  | (inr x, db') => f x db'
  end.

Definition raise {A} (e : Exn) : M A := λ db, (inl e, db).

(** [d[key]] *)
Definition getitem {A} (key : string) (v : option A) : M A :=
  match v with
  | Some x => mret x
  | None => raise (KeyError key)
  end.

(** [Product.objects.get(id=...)] *)
Definition Product_objects_get (id : Pk) : M (Pk * Product) := λ db,
  match Product_objects db !! id with
  | Some p => (inr (id, p), db)
  | None => (inl DoesNotExist, db)
  end.

(** [product.save()] *)
Definition Product_save (p : Pk * Product) : M unit := λ db,
  (inr tt, mkDB (<[p.1 := p.2]> (Product_objects db)) (Order_objects db)).

(** [Product.objects.filter(id=...).update(is_available=...)] *)
Definition Product_objects_filter_update (id : Pk) (b : bool) : M unit := λ db,
  (inr tt, mkDB (alter (set_is_available b) id (Product_objects db))
                (Order_objects db)).

(** [Order.objects.filter(buyer=..., product=...).exists()] *)
Definition Order_objects_filter_exists (buyer product : Pk) : M bool := λ db,
  (inr (bool_decide
          (map_Exists (λ _ o, o_buyer o = buyer ∧ o_product o = product)
                      (Order_objects db))), db).

(** [instance.save()] *)
Definition Order_save (o : Pk * Order) : M unit := λ db,
  (inr tt, mkDB (Product_objects db) (<[o.1 := o.2]> (Order_objects db))).

Section Serializer.

(** The default of the [status] column, declared in [order/models.py]. *)
Variable default_status : Status.

(** [Order.objects.create(buyer=..., product=..., amount=...)]: a row under a
    new key.

    Modelled from the spec: the vendor of an order is not passed by the
    serializer; the spec (section 3) has it derived from the seller of the
    product. *)
Definition Order_objects_create (buyer : Pk) (product : Pk * Product)
    (amount : Z) : M (Pk * Order) := λ db,
  let id := fresh (dom (Order_objects db)) in
  let o := mkOrder product.1 buyer (p_seller product.2) default_status amount in
  (inr (id, o), mkDB (Product_objects db) (<[id := o]> (Order_objects db))).

(** [OrderSerializer.validate], lines 110 to 158.  [method] is
    [request._request.method], [user] is [request.user.vendor] and [instance]
    the order the serializer was built on, if any. *)
Definition validate (method : string) (user : Pk)
    (instance : option (Pk * Order)) (data : Data) : M Data :=
  (if bool_decide (method = "POST") then
     buyer ← getitem "buyer" (d_buyer data);
     product ← getitem "product" (d_product data);
     standing ← Order_objects_filter_exists buyer product.1;
     if (standing : bool) then raise (MethodNotAllowed AlreadyInOrders) else
     amount ← getitem "amount" (d_amount data);
     product ← getitem "product" (d_product data);
     if bool_decide (float (p_price product.2) < float amount)%Z
     then raise (MethodNotAllowed (OfferTooHigh (p_price product.2)))
     else mret tt
   else mret tt);;
  (if bool_decide (method = "PUT") then
     inst ← from_option mret (raise AttributeError) instance;
     if bool_decide (user = o_buyer inst.2) then
       amount ← getitem "amount" (d_amount data);
       product ← getitem "product" (d_product data);
       if bool_decide (float (p_price product.2) < float amount)%Z
       then raise (MethodNotAllowed (OfferTooHigh (p_price product.2)))
       else mret tt
     else mret tt
   else mret tt);;
  product ← getitem "product" (d_product data);
  if negb (p_is_available product.2) then raise NotFound else mret data.

(** [OrderSerializer.create], lines 160 to 196.  [request_data_product] is
    [request.data.get("product")], the key sent by the client. *)
Definition create (user : Pk) (request_data_product : option Pk)
    (validated_data : Data) : M (Pk * Order) :=
  let buyer := user in
  product ← from_option Product_objects_get (raise DoesNotExist)
              request_data_product;
  let amount := default (p_price product.2) (d_amount validated_data) in
  instance ← Order_objects_create buyer product amount;
  let instance :=
    if bool_decide (float (o_amount instance.2) < float (p_price product.2))%Z
    then (instance.1, set_status OFFERED instance.2) else instance in
  let instance :=
    if bool_decide (float (o_amount instance.2) = float (p_price product.2))
    then (instance.1, set_status PROCESSING instance.2) else instance in
  (if bool_decide (o_status instance.2 = PROCESSING)
   then Product_objects_filter_update product.1 false else mret tt);;
  (if bool_decide (o_status instance.2 = OFFERED)
   then Product_objects_filter_update product.1 true else mret tt);;
  Order_save instance;;
  mret instance.

(** [instance.product]: the related row is fetched on first access and the
    fetched object is kept on the instance. *)
Definition instance_product (inst : Order) (cached : option (Pk * Product))
    : M (Pk * Product) :=
  from_option mret (Product_objects_get (o_product inst)) cached.

(** [OrderSerializer.update], lines 198 to 251. *)
Definition update (user : Pk) (instance : Pk * Order)
    (validated_data : Data) : M (Pk * Order) :=
  product_data ← getitem "product" (d_product validated_data);
  product ← Product_objects_get product_data.1;
  let inst := instance.2 in
  let inst :=
    if bool_decide (user = o_vendor inst)
    then set_status (default (o_status inst) (d_status validated_data)) inst
    else inst in
  let inst :=
    if bool_decide (user = o_buyer inst) then
      let inst :=
        set_amount (default (o_amount inst) (d_amount validated_data)) inst in
      let inst :=
        if bool_decide (float (o_amount inst) < float (p_price product.2))%Z
        then set_status OFFERED inst else inst in
      if bool_decide (float (o_amount inst) = float (p_price product.2))
      then set_status PROCESSING inst else inst
    else inst in
  Order_save (instance.1, inst);;
  '(product, related) ←
    (if bool_decide (o_status inst ∈ sold) then
       let product := (product.1, set_is_available false product.2) in
       Product_save product;;
       related ← instance_product inst None;
       mret (product, Some (related.1, set_is_available false related.2))
     else mret (product, None));
  '(product, related) ←
    (if bool_decide (o_status inst ∈ available) then
       let product := (product.1, set_is_available true product.2) in
       Product_save product;;
       related ← instance_product inst related;
       mret (product, Some (related.1, set_is_available true related.2))
     else mret (product, related));
  related ← instance_product inst related;
  Product_save related;;
  mret (instance.1, inst).

(** ** The two operations

    The view that drives the serializer ([order/views.py]) is not part of
    the module: it looks the order up, lets the relation field resolve the
    product key of the payload, calls [validate] (through [is_valid]) and
    then [create] or [update] (through [save]). *)

(** A relation field turns a key into the instance, or rejects the payload. *)
Definition related_field (id : Pk) : M (Pk * Product) := λ db,
  match Product_objects db !! id with
  | Some p => (inr (id, p), db)
  | None => (inl ValidationError, db)
  end.

(** [get_object()] of the view. *)
Definition get_object (id : Pk) : M (Pk * Order) := λ db,
  match Order_objects db !! id with
  | Some o => (inr (id, o), db)
  | None => (inl Http404, db)
  end.

(** Modelled from the spec: the request that creates an offer, section 4.1,
    [CreateOffer(actor, product_id, amount?)].  It is a POST whose payload
    names the product, the actor as buyer and, optionally, the amount. *)
Definition CreateOffer (actor product_id : Pk) (amount : option Z)
    : M (Pk * Order) :=
  product ← related_field product_id;
  let data := mkData (Some product) (Some actor) None amount in
  validated_data ← validate "POST" actor None data;
  create actor (Some product_id) validated_data.

(** Modelled from the spec: the request that updates an offer, section 4.1,
    [UpdateOffer(actor, order_id, {status?, amount?})].  It is a PUT on the
    order, whose payload sends the product and the buyer of the order back
    together with the new status or amount. *)
Definition UpdateOffer (actor order_id : Pk) (status : option Status)
    (amount : option Z) : M (Pk * Order) :=
  instance ← get_object order_id;
  product ← related_field (o_product instance.2);
  let data :=
    mkData (Some product) (Some (o_buyer instance.2)) status amount in
  validated_data ← validate "PUT" actor (Some instance) data;
  update actor instance validated_data.

End Serializer.

(** ** Requests, outcomes and sample stores *)

(** The two operations as requests. *)
Inductive Op :=
  | Create (actor product_id : Pk) (amount : option Z)
  | Update (actor order_id : Pk) (status : option Status) (amount : option Z).

Definition run (ds : Status) (op : Op) : M (Pk * Order) :=
  match op with
  | Create actor product_id amount => CreateOffer ds actor product_id amount
  | Update actor order_id status amount =>
      UpdateOffer actor order_id status amount
  end.

(** The store left by a sequence of requests, issued one after the other,
    whether they go through or fail. *)
Definition run_all (ds : Status) (ops : list Op) (db : DB) : DB :=
  foldl (λ db op, (run ds op db).2) db ops.

(** A shop with one available product, number 7, listed at 100 by vendor 2. *)
Definition shop : DB := mkDB {[ 7 := mkProduct 100 true 2 ]} ∅.

(** The shop after buyer 1 has offered 80 for the product. *)
Definition shop_offered : DB :=
  mkDB {[ 7 := mkProduct 100 true 2 ]} {[ 0 := mkOrder 7 1 2 OFFERED 80 ]}.

(** The shop after that buyer has raised the offer to the full price. *)
Definition shop_sold : DB :=
  mkDB {[ 7 := mkProduct 100 false 2 ]}
       {[ 0 := mkOrder 7 1 2 PROCESSING 100 ]}.

(** The shop after the vendor has accepted the offer of 80. *)
Definition shop_accepted : DB :=
  mkDB {[ 7 := mkProduct 100 false 2 ]} {[ 0 := mkOrder 7 1 2 ACCEPTED 80 ]}.

(** The shop after vendor 2 has offered 80 for the product it sells. *)
Definition shop_own_offer : DB :=
  mkDB {[ 7 := mkProduct 100 true 2 ]} {[ 0 := mkOrder 7 2 2 OFFERED 80 ]}.

(** A shop whose product is listed at 90000000000000.01. *)
Definition shop_dear : DB :=
  mkDB {[ 7 := mkProduct 9000000000000001 true 2 ]} ∅.

(** The shop with a second product, number 8, listed at 50 by vendor 2. *)
Definition shop_two : DB :=
  mkDB (<[ 8 := mkProduct 50 true 2 ]> {[ 7 := mkProduct 100 true 2 ]})
       {[ 0 := mkOrder 7 1 2 OFFERED 80 ]}.

(** The shop after the vendor has denied the offer of 80. *)
Definition shop_denied : DB :=
  mkDB {[ 7 := mkProduct 100 true 2 ]} {[ 0 := mkOrder 7 1 2 DENIED 80 ]}.

(** No two rows of the order table are for the same buyer and product. *)
Definition one_order_per_pair (db : DB) : Prop :=
  ∀ i j o o',
    Order_objects db !! i = Some o →
    Order_objects db !! j = Some o' →
    o_buyer o = o_buyer o' → o_product o = o_product o' → i = j.

(** The row an accepted update leaves: the two role branches of [update]. *)
Definition updated_row (actor : Pk) (o : Order) (price : Z)
    (st : option Status) (amt : option Z) : Order :=
  let o :=
    if bool_decide (actor = o_vendor o)
    then set_status (default (o_status o) st) o else o in
  if bool_decide (actor = o_buyer o) then
    let o := set_amount (default (o_amount o) amt) o in
    let o :=
      if bool_decide (float (o_amount o) < float price)%Z
      then set_status OFFERED o else o in
    if bool_decide (float (o_amount o) = float price)
    then set_status PROCESSING o else o
  else o.

(** What [UpdateOffer] does on an order of the table whose product is in the
    table. *)
Definition update_outcome (actor oid : Pk) (o : Order) (p : Product)
    (st : option Status) (amt : option Z) (db : DB)
    : (Exn + Pk * Order) * DB :=
  let o' := updated_row actor o (p_price p) st amt in
  let checked :=
    if p_is_available p then
      (inr (oid, o'),
       mkDB (<[o_product o :=
                set_is_available (bool_decide (o_status o' ∈ available)) p]>
               (Product_objects db))
            (<[oid := o']> (Order_objects db)))
    else (inl NotFound, db) in
  if bool_decide (actor = o_buyer o) then
    match amt with
    | None => (inl (KeyError "amount"), db)
    | Some a =>
        if bool_decide (float (p_price p) < float a)%Z
        then (inl (MethodNotAllowed (OfferTooHigh (p_price p))), db)
        else checked
    end
  else checked.

(** What [CreateOffer] does on a product of the table. *)
Definition create_outcome (ds : Status) (actor pid : Pk) (p : Product)
    (amt : option Z) (db : DB) : (Exn + Pk * Order) * DB :=
  if bool_decide (map_Exists (λ _ o, o_buyer o = actor ∧ o_product o = pid)
                             (Order_objects db))
  then (inl (MethodNotAllowed AlreadyInOrders), db)
  else
    match amt with
    | None => (inl (KeyError "amount"), db)
    | Some a =>
        if bool_decide (float (p_price p) < float a)%Z
        then (inl (MethodNotAllowed (OfferTooHigh (p_price p))), db)
        else if p_is_available p then
          let id := fresh (dom (Order_objects db)) in
          let below := bool_decide (float a < float (p_price p))%Z in
          let o := mkOrder pid actor (p_seller p)
                     (if below then OFFERED else PROCESSING) a in
          (inr (id, o),
           mkDB (<[pid := set_is_available below p]> (Product_objects db))
                (<[id := o]> (Order_objects db)))
        else (inl NotFound, db)
    end.

(** ** Unfolding the operations *)

Ltac unfold_ops :=
  unfold UpdateOffer, CreateOffer, validate, update, create, get_object,
    related_field, instance_product, getitem, raise, Product_objects_get,
    Product_save, Order_save, Order_objects_create,
    Product_objects_filter_update, Order_objects_filter_exists,
    mbind, M_bind, mret, M_ret; simpl.

(** ** The cast to [float] *)

Section FloatCast.
Local Open Scope Z_scope.

Lemma rne_range N M : 0 < M → N / M ≤ rne N M ≤ N / M + 1.
Proof.
  intros HM. unfold rne.
  destruct (2 * (N mod M) <? M), (M <? 2 * (N mod M)), (Z.even (N / M)); lia.
Qed.

Lemma rne_lower N M a : 0 < M → a * M ≤ N → a ≤ rne N M.
Proof.
  intros HM Ha. pose proof (rne_range N M HM).
  assert (a ≤ N / M) by (apply Z.div_le_lower_bound; lia). lia.
Qed.

Lemma rne_upper N M b : 0 < M → N ≤ b * M → rne N M ≤ b.
Proof.
  intros HM Hb. unfold rne.
  pose proof (Z.div_mod N M ltac:(lia)) as Hdm.
  pose proof (Z.mod_pos_bound N M HM) as Hr.
  assert (N / M ≤ b) by (apply Z.div_le_upper_bound; lia).
  destruct (Z.eq_dec (N / M) b) as [Heq|Hne].
  - assert (N mod M = 0) by nia.
    replace (2 * (N mod M) <? M) with true by (symmetry; apply Z.ltb_lt; lia).
    lia.
  - destruct (2 * (N mod M) <? M), (M <? 2 * (N mod M)), (Z.even (N / M)); lia.
Qed.

Lemma rne_mono N N' M : 0 < M → N ≤ N' → rne N M ≤ rne N' M.
Proof.
  intros HM Hle.
  pose proof (rne_range N M HM). pose proof (rne_range N' M HM).
  assert (Hk : N / M ≤ N' / M) by (apply Z.div_le_mono; lia).
  destruct (Z.eq_dec (N / M) (N' / M)) as [Heq|Hne]; [|lia].
  pose proof (Z.div_mod N M ltac:(lia)). pose proof (Z.div_mod N' M ltac:(lia)).
  assert (N mod M ≤ N' mod M) by nia.
  unfold rne. rewrite <- Heq.
  destruct (2 * (N mod M) <? M) eqn:E1, (M <? 2 * (N mod M)) eqn:E2,
    (2 * (N' mod M) <? M) eqn:E3, (M <? 2 * (N' mod M)) eqn:E4,
    (Z.even (N / M)); lia.
Qed.

Lemma decimal_scale_bits :
  0 < decimal_scale ∧ 0 ≤ scale_bits ∧ decimal_scale < 2 ^ scale_bits.
Proof. by vm_compute. Qed.

Lemma float_pos_binade c :
  0 < c →
  0 ≤ Z.log2 (c * 2 ^ scale_bits / decimal_scale) ∧
  2 ^ Z.log2 (c * 2 ^ scale_bits / decimal_scale) * 2 ^ 52
    ≤ 2 ^ Z.log2 (c * 2 ^ scale_bits / decimal_scale)
      * rne (c * 2 ^ (scale_bits + 52))
            (decimal_scale * 2 ^ Z.log2 (c * 2 ^ scale_bits / decimal_scale))
    ≤ 2 ^ Z.log2 (c * 2 ^ scale_bits / decimal_scale) * 2 ^ 53.
Proof.
  intros Hc. destruct decimal_scale_bits as (HD & Hs & HDs).
  generalize dependent scale_bits. generalize dependent decimal_scale.
  intros D HD s Hs HDs.
  set (q := c * 2 ^ s / D).
  assert (Hq : 0 < q) by (apply Z.div_str_pos; nia).
  destruct (Z.log2_spec q Hq) as [Hlo Hhi].
  pose proof (Z.log2_nonneg q) as Hw.
  set (w := Z.log2 q) in *.
  assert (Hpw : 0 < 2 ^ w) by (apply Z.pow_pos_nonneg; lia).
  rewrite Z.pow_succ_r in Hhi by done.
  pose proof (Z.mul_div_le (c * 2 ^ s) D HD) as Hfl.
  pose proof (Z.mul_succ_div_gt (c * 2 ^ s) D HD) as Hce.
  fold q in Hfl, Hce.
  rewrite Z.pow_add_r by lia.
  split; [done|]. split.
  - apply Z.mul_le_mono_nonneg_l; [lia|]. apply rne_lower; nia.
  - apply Z.mul_le_mono_nonneg_l; [lia|]. apply rne_upper; nia.
Qed.

Lemma float_pos_mono c c' : 0 < c → c ≤ c' → float_pos c ≤ float_pos c'.
Proof.
  intros Hc Hle. unfold float_pos.
  apply Z.min_le_compat_r.
  pose proof (float_pos_binade c Hc) as (Hw & Hlo & Hhi).
  pose proof (float_pos_binade c' ltac:(lia)) as (Hw' & Hlo' & Hhi').
  destruct decimal_scale_bits as (HD & Hs & HDs).
  assert (Hww : Z.log2 (c * 2 ^ scale_bits / decimal_scale)
                ≤ Z.log2 (c' * 2 ^ scale_bits / decimal_scale)).
  { apply Z.log2_le_mono, Z.div_le_mono; [done|].
    apply Z.mul_le_mono_nonneg_r; [|done]. by apply Z.pow_nonneg. }
  set (w := Z.log2 (c * 2 ^ scale_bits / decimal_scale)) in *.
  set (w' := Z.log2 (c' * 2 ^ scale_bits / decimal_scale)) in *.
  destruct (Z.eq_dec w w') as [<-|Hne].
  - apply Z.mul_le_mono_nonneg_l; [by apply Z.pow_nonneg|].
    apply rne_mono.
    + apply Z.mul_pos_pos; [done|]. by apply Z.pow_pos_nonneg.
    + apply Z.mul_le_mono_nonneg_r; [|done]. by apply Z.pow_nonneg.
  - assert (2 ^ w * 2 ^ 53 ≤ 2 ^ w' * 2 ^ 52); [|lia].
    rewrite <- !Z.pow_add_r by lia.
    apply Z.pow_le_mono_r; lia.
Qed.

Lemma float_pos_nonneg c : 0 < c → 0 ≤ float_pos c.
Proof.
  intros Hc. unfold float_pos.
  pose proof (float_pos_binade c Hc) as (Hw & Hlo & _).
  apply Z.min_glb; [|by apply Z.pow_nonneg].
  etrans; [|exact Hlo]. apply Z.mul_nonneg_nonneg; by apply Z.pow_nonneg.
Qed.

Lemma float_mono a b : a ≤ b → float a ≤ float b.
Proof.
  intros Hle. destruct a as [|a|a], b as [|b|b]; unfold float;
    try (pose proof (Pos2Z.is_pos a)); try (pose proof (Pos2Z.is_pos b));
    try (pose proof (Pos2Z.neg_is_neg a));
    try (pose proof (Pos2Z.neg_is_neg b)); try lia.
  - by apply float_pos_nonneg.
  - by apply float_pos_mono.
  - pose proof (float_pos_nonneg (- Z.neg a) ltac:(lia)). lia.
  - pose proof (float_pos_nonneg (- Z.neg a) ltac:(lia)).
    pose proof (float_pos_nonneg (Z.pos b) ltac:(lia)). lia.
  - pose proof (float_pos_mono (- Z.neg b) (- Z.neg a) ltac:(lia) ltac:(lia)).
    lia.
Qed.

End FloatCast.

(** The cast is computed by [vm_compute] only. *)
#[global] Opaque float.

Lemma status_sold_or_available (st : Status) :
  bool_decide (st ∈ available) = negb (bool_decide (st ∈ sold)).
Proof. by destruct st; vm_compute. Qed.

Lemma updated_row_product actor o price st amt :
  o_product (updated_row actor o price st amt) = o_product o.
Proof. unfold updated_row. by repeat (case_bool_decide; simpl). Qed.

(** [update] on a payload whose product is in the table, for an order whose
    own product is in the table: both rows get the flag of the new status. *)
Lemma update_run user oid o vd db pid q p p' :
  d_product vd = Some (pid, q) →
  Product_objects db !! pid = Some p →
  Product_objects db !! o_product o = Some p' →
  update user (oid, o) vd db =
    let o' := updated_row user o (p_price p) (d_status vd) (d_amount vd) in
    let b := bool_decide (o_status o' ∈ available) in
    (inr (oid, o'),
     mkDB (<[o_product o := set_is_available b p']>
             (<[pid := set_is_available b p]> (Product_objects db)))
          (<[oid := o']> (Order_objects db))).
Proof.
  intros Hvd Hp Hp'.
  unfold update. rewrite Hvd. unfold_ops. rewrite Hp. simpl.
  change (if bool_decide (user = o_buyer _) then _ else _)
    with (updated_row user o (p_price p) (d_status vd) (d_amount vd)).
  rewrite updated_row_product.
  generalize (updated_row user o (p_price p) (d_status vd) (d_amount vd)).
  intros o'.
  replace (bool_decide (o_status o' ∈ sold))
    with (negb (bool_decide (o_status o' ∈ available)))
    by (by rewrite status_sold_or_available, negb_involutive).
  destruct (bool_decide (o_status o' ∈ available)); simpl.
  - rewrite lookup_insert. case_decide; simpl.
    + subst pid. rewrite Hp in Hp'. by injection Hp' as ->.
    + by rewrite Hp'.
  - rewrite lookup_insert. case_decide; simpl.
    + subst pid. rewrite Hp in Hp'. by injection Hp' as ->.
    + by rewrite Hp'.
Qed.

(** [update] raises when a row it needs is not in the table; it returns only
    on a payload with a product, when that product and the product of the
    order are both in the table. *)
Lemma update_inr user oid o vd db r db' :
  update user (oid, o) vd db = (inr r, db') →
  ∃ pid q p p',
    d_product vd = Some (pid, q) ∧
    Product_objects db !! pid = Some p ∧
    Product_objects db !! o_product o = Some p'.
Proof.
  intros Hrun.
  destruct (d_product vd) as [[pid q]|] eqn:Hvd;
    [|revert Hrun; unfold update; rewrite Hvd; by unfold_ops].
  destruct (Product_objects db !! pid) as [p|] eqn:Hp;
    [|revert Hrun; unfold update; rewrite Hvd; unfold_ops; by rewrite Hp].
  destruct (Product_objects db !! o_product o) as [p'|] eqn:Hp';
    [by exists pid, q, p, p'|].
  exfalso. revert Hrun.
  unfold update. rewrite Hvd. unfold_ops. rewrite Hp. simpl.
  change (if bool_decide (user = o_buyer _) then _ else _)
    with (updated_row user o (p_price p) (d_status vd) (d_amount vd)).
  rewrite updated_row_product.
  generalize (updated_row user o (p_price p) (d_status vd) (d_amount vd)).
  intros o'.
  replace (bool_decide (o_status o' ∈ sold))
    with (negb (bool_decide (o_status o' ∈ available)))
    by (by rewrite status_sold_or_available, negb_involutive).
  assert (Hne : pid ≠ o_product o) by (intros ->; congruence).
  destruct (bool_decide (o_status o' ∈ available)); simpl;
    rewrite lookup_insert_ne, Hp' by done; simpl; done.
Qed.

(** Whatever the payload, when [update] returns the order is stored as
    returned and the flag of its product is the one of its status. *)
Lemma update_reconciles user inst vd db r db' :
  update user inst vd db = (inr r, db') →
  Order_objects db' !! r.1 = Some r.2 ∧
  ∃ p, Product_objects db' !! o_product r.2 = Some p ∧
       p_is_available p = bool_decide (o_status r.2 ∈ available).
Proof.
  destruct inst as [oid o]. intros Hrun.
  destruct (update_inr _ _ _ _ _ _ _ Hrun) as (pid & q & p & p' & Hvd & Hp & Hp').
  rewrite (update_run _ _ _ _ _ pid q p p') in Hrun by done.
  simpl in Hrun. injection Hrun as <- <-. simpl.
  split; [by rewrite lookup_insert_eq|].
  rewrite updated_row_product, lookup_insert_eq. by eexists.
Qed.

(** [validate] on a PUT request whose payload names a product. *)
Lemma validate_PUT user inst data db pid q :
  d_product data = Some (pid, q) →
  validate "PUT" user (Some inst) data db =
    (if bool_decide (user = o_buyer inst.2) then
       match d_amount data with
       | None => inl (KeyError "amount")
       | Some a =>
           if bool_decide (float (p_price q) < float a)%Z
           then inl (MethodNotAllowed (OfferTooHigh (p_price q)))
           else if p_is_available q then inr data else inl NotFound
       end
     else if p_is_available q then inr data else inl NotFound, db).
Proof.
  intros Hd. unfold_ops. rewrite Hd; simpl.
  case_bool_decide; simpl.
  - destruct (d_amount data) as [a|]; simpl; [|done].
    case_bool_decide; simpl; [done|]. by destruct (p_is_available q).
  - by destruct (p_is_available q).
Qed.

(** [validate] on a POST request whose payload names a buyer and a product. *)
Lemma validate_POST user inst data db buyer pid q :
  d_buyer data = Some buyer →
  d_product data = Some (pid, q) →
  validate "POST" user inst data db =
    (if bool_decide (map_Exists (λ _ o, o_buyer o = buyer ∧ o_product o = pid)
                                (Order_objects db))
     then inl (MethodNotAllowed AlreadyInOrders)
     else
       match d_amount data with
       | None => inl (KeyError "amount")
       | Some a =>
           if bool_decide (float (p_price q) < float a)%Z
           then inl (MethodNotAllowed (OfferTooHigh (p_price q)))
           else if p_is_available q then inr data else inl NotFound
       end, db).
Proof.
  intros Hb Hd. unfold_ops. rewrite Hb, Hd; simpl.
  case_bool_decide; simpl; [done|].
  destruct (d_amount data) as [a|]; simpl; [|done].
  case_bool_decide; simpl; [done|]. by destruct (p_is_available q).
Qed.

Lemma UpdateOffer_eq actor oid st amt db o p :
  Order_objects db !! oid = Some o →
  Product_objects db !! o_product o = Some p →
  UpdateOffer actor oid st amt db = update_outcome actor oid o p st amt db.
Proof.
  intros Ho Hp.
  unfold UpdateOffer, update_outcome, get_object, related_field, mbind, M_bind.
  rewrite Ho; simpl. rewrite Hp; simpl.
  rewrite (validate_PUT _ _ _ _ (o_product o) p) by done. simpl.
  assert (Hrun : ∀ d, d = mkData (Some (o_product o, p)) (Some (o_buyer o))
                               st amt →
    update actor (oid, o) d db =
      (inr (oid, updated_row actor o (p_price p) st amt),
       mkDB (<[o_product o :=
                set_is_available
                  (bool_decide
                     (o_status (updated_row actor o (p_price p) st amt)
                      ∈ available)) p]> (Product_objects db))
            (<[oid := updated_row actor o (p_price p) st amt]>
               (Order_objects db)))).
  { intros d ->.
    rewrite (update_run _ _ _ _ _ (o_product o) p p p) by done. simpl.
    by rewrite insert_insert_eq. }
  destruct (bool_decide (actor = o_buyer o)); simpl.
  - destruct amt as [a|]; simpl; [|done].
    destruct (bool_decide (float (p_price p) < float a)%Z); simpl; [done|].
    destruct (p_is_available p); simpl; [|done]. by apply Hrun.
  - destruct (p_is_available p); simpl; [|done]. by apply Hrun.
Qed.

Lemma UpdateOffer_no_order actor oid st amt db :
  Order_objects db !! oid = None →
  UpdateOffer actor oid st amt db = (inl Http404, db).
Proof.
  intros Ho. unfold UpdateOffer, get_object, mbind, M_bind. by rewrite Ho.
Qed.

Lemma UpdateOffer_no_product actor oid st amt db o :
  Order_objects db !! oid = Some o →
  Product_objects db !! o_product o = None →
  UpdateOffer actor oid st amt db = (inl ValidationError, db).
Proof.
  intros Ho Hp. unfold UpdateOffer, get_object, related_field, mbind, M_bind.
  rewrite Ho; simpl. by rewrite Hp.
Qed.

Lemma alter_present (f : Product → Product) (m : gmap nat Product) i x :
  m !! i = Some x → alter f i m = <[i := f x]> m.
Proof.
  intros Hi. apply map_eq; intros j.
  rewrite lookup_alter, lookup_insert. case_decide; [|done].
  subst j. by rewrite Hi.
Qed.

(** [create] on validated data with an amount that does not exceed the price
    of a product of the table. *)
Lemma create_run ds user pid vd db p a :
  Product_objects db !! pid = Some p →
  d_amount vd = Some a →
  (float a ≤ float (p_price p))%Z →
  create ds user (Some pid) vd db =
    let id := fresh (dom (Order_objects db)) in
    let below := bool_decide (float a < float (p_price p))%Z in
    let o := mkOrder pid user (p_seller p)
               (if below then OFFERED else PROCESSING) a in
    (inr (id, o),
     mkDB (<[pid := set_is_available below p]> (Product_objects db))
          (<[id := o]> (Order_objects db))).
Proof.
  intros Hp Ha Hle. unfold_ops. rewrite Hp; simpl. rewrite Ha; simpl.
  destruct (decide (float a < float (p_price p))%Z) as [Hlt|Hge].
  - rewrite (bool_decide_eq_true_2 _ Hlt); simpl.
    rewrite (bool_decide_eq_false_2 (float a = float (p_price p))) by lia; simpl.
    rewrite (alter_present _ _ _ p) by done.
    by rewrite insert_insert_eq.
  - rewrite (bool_decide_eq_false_2 _ Hge); simpl.
    rewrite (bool_decide_eq_true_2 (float a = float (p_price p))) by lia; simpl.
    rewrite (alter_present _ _ _ p) by done.
    by rewrite insert_insert_eq.
Qed.

Lemma CreateOffer_eq ds actor pid amt db p :
  Product_objects db !! pid = Some p →
  CreateOffer ds actor pid amt db = create_outcome ds actor pid p amt db.
Proof.
  intros Hp.
  unfold CreateOffer, create_outcome, related_field, mbind, M_bind.
  rewrite Hp; simpl.
  rewrite (validate_POST _ _ _ _ actor pid p) by done. simpl.
  destruct (bool_decide (map_Exists _ _)); simpl; [done|].
  destruct amt as [a|]; simpl; [|done].
  case_bool_decide as Hgt; simpl; [done|].
  destruct (p_is_available p); simpl; [|done].
  by rewrite (create_run _ _ _ _ _ p a) by (done || lia).
Qed.

Lemma CreateOffer_no_product ds actor pid amt db :
  Product_objects db !! pid = None →
  CreateOffer ds actor pid amt db = (inl ValidationError, db).
Proof.
  intros Hp. unfold CreateOffer, related_field, mbind, M_bind. by rewrite Hp.
Qed.

Lemma UpdateOffer_inr actor oid st amt db r db' :
  UpdateOffer actor oid st amt db = (inr r, db') →
  ∃ o p,
    Order_objects db !! oid = Some o ∧
    Product_objects db !! o_product o = Some p ∧
    p_is_available p = true ∧
    (actor = o_buyer o → ∃ a, amt = Some a ∧ (float a ≤ float (p_price p))%Z) ∧
    r = (oid, updated_row actor o (p_price p) st amt) ∧
    db' = mkDB (<[o_product o :=
                   set_is_available (bool_decide (o_status r.2 ∈ available)) p]>
                  (Product_objects db))
               (<[oid := r.2]> (Order_objects db)).
Proof.
  intros Hrun.
  destruct (Order_objects db !! oid) as [o|] eqn:Ho;
    [|by rewrite UpdateOffer_no_order in Hrun].
  destruct (Product_objects db !! o_product o) as [p|] eqn:Hp;
    [|by rewrite (UpdateOffer_no_product _ _ _ _ _ o) in Hrun].
  rewrite (UpdateOffer_eq _ _ _ _ _ o p) in Hrun by done.
  exists o, p. unfold update_outcome in Hrun.
  destruct (bool_decide (actor = o_buyer o)) eqn:Hb.
  - destruct amt as [a|]; [|done].
    case_bool_decide as Hgt; [done|].
    destruct (p_is_available p); [|done].
    injection Hrun as <- <-. repeat split; try done.
    intros _. exists a. split; [done|lia].
  - destruct (p_is_available p); [|done].
    injection Hrun as <- <-. repeat split; try done.
    intros ->. by rewrite bool_decide_eq_true_2 in Hb.
Qed.

Lemma UpdateOffer_reconciles actor oid st amt db r db' :
  UpdateOffer actor oid st amt db = (inr r, db') →
  Order_objects db' !! r.1 = Some r.2 ∧
  ∃ p, Product_objects db' !! o_product r.2 = Some p ∧
       p_is_available p = bool_decide (o_status r.2 ∈ available).
Proof.
  intros (o & p & Ho & Hp & Hav & _ & -> & ->)%UpdateOffer_inr. simpl.
  split; [by rewrite lookup_insert_eq|].
  rewrite updated_row_product, lookup_insert_eq. by eexists.
Qed.

Lemma CreateOffer_inr ds actor pid amt db r db' :
  CreateOffer ds actor pid amt db = (inr r, db') →
  ∃ p a,
    Product_objects db !! pid = Some p ∧
    amt = Some a ∧ (float a ≤ float (p_price p))%Z ∧ p_is_available p = true ∧
    r = (fresh (dom (Order_objects db)),
         mkOrder pid actor (p_seller p)
           (if bool_decide (float a < float (p_price p))%Z then OFFERED else PROCESSING) a) ∧
    db' = mkDB (<[pid := set_is_available (bool_decide (float a < float (p_price p))%Z) p]>
                  (Product_objects db))
               (<[r.1 := r.2]> (Order_objects db)).
Proof.
  intros Hrun.
  destruct (Product_objects db !! pid) as [p|] eqn:Hp;
    [|by rewrite CreateOffer_no_product in Hrun].
  rewrite (CreateOffer_eq _ _ _ _ _ p) in Hrun by done.
  unfold create_outcome in Hrun.
  destruct (bool_decide (map_Exists _ _)); [done|].
  destruct amt as [a|]; [|done].
  case_bool_decide as Hgt; [done|].
  destruct (p_is_available p) eqn:Hav; [|done].
  injection Hrun as <- <-. exists p, a. repeat split; try done. lia.
Qed.

Lemma CreateOffer_reconciles ds actor pid amt db r db' :
  CreateOffer ds actor pid amt db = (inr r, db') →
  Order_objects db' !! r.1 = Some r.2 ∧
  ∃ p, Product_objects db' !! o_product r.2 = Some p ∧
       p_is_available p = bool_decide (o_status r.2 ∈ available).
Proof.
  intros (p & a & Hp & -> & Hle & Hav & -> & ->)%CreateOffer_inr. simpl.
  split; [by rewrite lookup_insert_eq|].
  rewrite lookup_insert_eq. eexists; split; [done|]. simpl.
  by case_bool_decide.
Qed.

Lemma CreateOffer_no_amount ds B P p db :
  Product_objects db !! P = Some p →
  ¬ (∃ i o, Order_objects db !! i = Some o ∧ o_buyer o = B ∧ o_product o = P) →
  CreateOffer ds B P None db = (inl (KeyError "amount"), db).
Proof.
  intros Hp Hno. rewrite (CreateOffer_eq _ _ _ _ _ p) by done.
  unfold create_outcome. by rewrite bool_decide_eq_false_2.
Qed.

Lemma CreateOffer_standing ds B P p amt db :
  Product_objects db !! P = Some p →
  (∃ i o, Order_objects db !! i = Some o ∧ o_buyer o = B ∧ o_product o = P) →
  CreateOffer ds B P amt db = (inl (MethodNotAllowed AlreadyInOrders), db).
Proof.
  intros Hp Hex. rewrite (CreateOffer_eq _ _ _ _ _ p) by done.
  unfold create_outcome. by rewrite bool_decide_eq_true_2.
Qed.

Lemma UpdateOffer_inl actor oid st amt db e db' :
  UpdateOffer actor oid st amt db = (inl e, db') → db' = db.
Proof.
  intros Hrun.
  destruct (Order_objects db !! oid) as [o|] eqn:Ho;
    [|rewrite UpdateOffer_no_order in Hrun by done; by injection Hrun].
  destruct (Product_objects db !! o_product o) as [p|] eqn:Hp;
    [|rewrite (UpdateOffer_no_product _ _ _ _ _ o) in Hrun by done;
      by injection Hrun].
  rewrite (UpdateOffer_eq _ _ _ _ _ o p) in Hrun by done.
  unfold update_outcome in Hrun.
  destruct (bool_decide (actor = o_buyer o)), amt as [a|],
    (p_is_available p); try case_bool_decide; by simplify_eq.
Qed.

Lemma updated_row_status_only actor o price st :
  actor ≠ o_buyer o →
  updated_row actor o price (Some st) None
    = if bool_decide (actor = o_vendor o) then set_status st o else o.
Proof.
  intros Hne. unfold updated_row. simpl.
  destruct (bool_decide (actor = o_vendor o)); simpl;
    by rewrite bool_decide_eq_false_2.
Qed.

(** ** The claims *)

(** C1. After every completed CreateOffer or UpdateOffer the order is stored
    as returned and the flag [is_available] of its product is true exactly
    when the status of the order is in [available], that is, false exactly
    when the status is in [sold]. *)
Theorem availability_follows_status ds op db r db' :
  run ds op db = (inr r, db') →
  Order_objects db' !! r.1 = Some r.2 ∧
  ∃ p, Product_objects db' !! o_product r.2 = Some p ∧
       p_is_available p = bool_decide (o_status r.2 ∈ available) ∧
       (p_is_available p = false ↔ o_status r.2 ∈ sold).
Proof.
  intros Hrun.
  assert (Order_objects db' !! r.1 = Some r.2 ∧
          ∃ p, Product_objects db' !! o_product r.2 = Some p ∧
               p_is_available p = bool_decide (o_status r.2 ∈ available))
    as [Hstored (p & Hp & Hflag)].
  { destruct op; simpl in Hrun.
    - by eapply CreateOffer_reconciles.
    - by eapply UpdateOffer_reconciles. }
  split; [done|]. exists p. repeat split; try done.
  - rewrite Hflag, status_sold_or_available.
    intros Hs%negb_false_iff. by apply bool_decide_eq_true_1 in Hs.
  - intros Hs. rewrite Hflag, status_sold_or_available.
    by rewrite bool_decide_eq_true_2.
Qed.

Lemma availability_follows_status_witness :
  run PENDING (Create 1 7 (Some 80%Z)) shop
    = (inr (0, mkOrder 7 1 2 OFFERED 80), shop_offered) ∧
  Order_objects shop_offered !! 0 = Some (mkOrder 7 1 2 OFFERED 80) ∧
  ∃ p, Product_objects shop_offered !! 7 = Some p ∧
       p_is_available p = bool_decide (OFFERED ∈ available) ∧
       (p_is_available p = false ↔ OFFERED ∈ sold).
Proof.
  split; [by vm_compute|].
  apply (availability_follows_status PENDING (Create 1 7 (Some 80%Z)) shop
           (0, mkOrder 7 1 2 OFFERED 80) shop_offered).
  by vm_compute.
Defined.

(** C2 (as the code has it). An UpdateOffer on an order whose product is not
    available fails and changes nothing, for the buyer of the order as for
    anybody else: with NotFound, except that a buyer whose payload has no
    amount gets the key error and a buyer whose amount, cast to [float],
    exceeds the cast of the price gets Conflict, both raised before the
    availability check. *)
Theorem update_rejected_when_unavailable actor oid st amt db o p :
  Order_objects db !! oid = Some o →
  Product_objects db !! o_product o = Some p →
  p_is_available p = false →
  UpdateOffer actor oid st amt db =
    (inl (if bool_decide (actor = o_buyer o) then
            match amt with
            | None => KeyError "amount"
            | Some a =>
                if bool_decide (float (p_price p) < float a)%Z
                then MethodNotAllowed (OfferTooHigh (p_price p))
                else NotFound
            end
          else NotFound), db).
Proof.
  intros Ho Hp Hav. rewrite (UpdateOffer_eq _ _ _ _ _ o p) by done.
  unfold update_outcome. rewrite Hav.
  destruct (bool_decide (actor = o_buyer o)); [|done].
  destruct amt as [a|]; [|done]. by case_bool_decide.
Qed.

Lemma update_rejected_when_unavailable_witness :
  Order_objects shop_sold !! 0 = Some (mkOrder 7 1 2 PROCESSING 100) ∧
  Product_objects shop_sold !! 7 = Some (mkProduct 100 false 2) ∧
  UpdateOffer 2 0 (Some COMPLETED) None shop_sold = (inl NotFound, shop_sold).
Proof.
  split; [by vm_compute|]. split; [by vm_compute|].
  apply (update_rejected_when_unavailable 2 0 (Some COMPLETED) None shop_sold
           (mkOrder 7 1 2 PROCESSING 100) (mkProduct 100 false 2));
    by vm_compute.
Defined.

(** C2, counterexample. Buyer 1 lowers the amount of its own order 0, whose
    product is already unavailable: the update does not proceed, it is
    rejected with NotFound. *)
Lemma buyer_update_on_sold_product_counterexample :
  o_buyer <$> Order_objects shop_sold !! 0 = Some 1 ∧
  p_is_available <$> Product_objects shop_sold !! 7 = Some false ∧
  UpdateOffer 1 0 None (Some 90%Z) shop_sold = (inl NotFound, shop_sold) ∧
  ¬ ∃ r db', UpdateOffer 1 0 None (Some 90%Z) shop_sold = (inr r, db').
Proof.
  split; [by vm_compute|]. split; [by vm_compute|].
  assert (H : UpdateOffer 1 0 None (Some 90%Z) shop_sold
              = (inl NotFound, shop_sold)) by (by vm_compute).
  split; [done|]. intros (r & db' & Hr). by rewrite H in Hr.
Qed.

(** C3, the code at the failing input. On the shop, where product 7 is
    available and no order exists, CreateOffer without an amount raises the
    key error of [validate]; no order is created. *)
Theorem create_without_amount_raises ds :
  CreateOffer ds 1 7 None shop = (inl (KeyError "amount"), shop).
Proof.
  apply (CreateOffer_no_amount ds 1 7 (mkProduct 100 true 2)); [done|].
  intros (i & o & Ho & _). simpl in Ho. by rewrite lookup_empty in Ho.
Qed.

(** C4 (as the code has it). For an order whose product is available, the
    buyer's UpdateOffer with the full price as amount yields status
    PROCESSING and makes the product unavailable; the following UpdateOffer
    of the buyer with the price less one is then rejected with NotFound,
    and the order stays PROCESSING and the product unavailable. *)
Theorem buyer_full_price_then_lower oid db o p :
  Order_objects db !! oid = Some o →
  Product_objects db !! o_product o = Some p →
  p_is_available p = true →
  ∃ o1 db1,
    UpdateOffer (o_buyer o) oid None (Some (p_price p)) db
      = (inr (oid, o1), db1) ∧
    o_status o1 = PROCESSING ∧
    Order_objects db1 !! oid = Some o1 ∧
    p_is_available <$> Product_objects db1 !! o_product o = Some false ∧
    UpdateOffer (o_buyer o) oid None (Some (p_price p - 1)%Z) db1
      = (inl NotFound, db1).
Proof.
  intros Ho Hp Hav.
  set (o1 := updated_row (o_buyer o) o (p_price p) None (Some (p_price p))).
  assert (Hst : o_status o1 = PROCESSING).
  { unfold o1, updated_row. simpl.
    destruct (bool_decide (o_buyer o = o_vendor o)); simpl;
      rewrite (bool_decide_eq_true_2 (o_buyer o = o_buyer o)) by done; simpl;
      rewrite (bool_decide_eq_false_2
                 (float (p_price p) < float (p_price p))%Z) by lia; simpl;
      by rewrite (bool_decide_eq_true_2
                    (float (p_price p) = float (p_price p))) by done. }
  assert (Hb : o_buyer o1 = o_buyer o).
  { unfold o1, updated_row.
    by repeat (case_bool_decide; simpl). }
  eexists o1, _. split.
  { rewrite (UpdateOffer_eq _ _ _ _ _ o p) by done. unfold update_outcome.
    rewrite bool_decide_eq_true_2 by done.
    rewrite bool_decide_eq_false_2 by lia. rewrite Hav. reflexivity. }
  fold o1. rewrite Hst. simpl.
  split; [done|]. split; [by rewrite lookup_insert_eq|].
  split; [by rewrite lookup_insert_eq|].
  rewrite (UpdateOffer_eq _ _ _ _ _ o1 (set_is_available false p)); simpl.
  - pose proof (float_mono (p_price p - 1) (p_price p) ltac:(lia)) as Hmono.
    unfold update_outcome. rewrite Hb.
    rewrite bool_decide_eq_true_2 by done.
    by rewrite bool_decide_eq_false_2 by (simpl; lia).
  - by rewrite lookup_insert_eq.
  - unfold o1. by rewrite updated_row_product, lookup_insert_eq.
Qed.

Lemma buyer_full_price_then_lower_witness :
  Order_objects shop_offered !! 0 = Some (mkOrder 7 1 2 OFFERED 80) ∧
  Product_objects shop_offered !! 7 = Some (mkProduct 100 true 2) ∧
  ∃ o1 db1,
    UpdateOffer 1 0 None (Some 100%Z) shop_offered = (inr (0, o1), db1) ∧
    o_status o1 = PROCESSING ∧
    Order_objects db1 !! 0 = Some o1 ∧
    p_is_available <$> Product_objects db1 !! 7 = Some false ∧
    UpdateOffer 1 0 None (Some (100 - 1)%Z) db1 = (inl NotFound, db1).
Proof.
  split; [by vm_compute|]. split; [by vm_compute|].
  apply (buyer_full_price_then_lower 0 shop_offered
           (mkOrder 7 1 2 OFFERED 80) (mkProduct 100 true 2));
    by vm_compute.
Defined.

(** C4, counterexample. Buyer 1 raises order 0 to the full price of 100,
    which succeeds and leaves the order PROCESSING and the product
    unavailable; the subsequent update to 99 does not yield OFFERED and an
    available product: it is rejected and nothing changes. *)
Lemma buyer_lowering_after_full_price_counterexample :
  UpdateOffer 1 0 None (Some 100%Z) shop_offered
    = (inr (0, mkOrder 7 1 2 PROCESSING 100), shop_sold) ∧
  UpdateOffer 1 0 None (Some 99%Z) shop_sold = (inl NotFound, shop_sold) ∧
  o_status <$> Order_objects shop_sold !! 0 ≠ Some OFFERED ∧
  p_is_available <$> Product_objects shop_sold !! 7 ≠ Some true.
Proof. repeat split; by vm_compute. Qed.

(** C5 (as the code has it). For an order with status OFFERED on an available
    product, whose vendor is not also its buyer, the vendor's UpdateOffer
    with status ACCEPTED sets the status of the order to ACCEPTED and makes
    the product unavailable; and whoever the actor of an UpdateOffer on the
    order is, once the update is through the flag of the product is the one
    of the new status. *)
Theorem vendor_accepts_offer oid db o p :
  Order_objects db !! oid = Some o →
  Product_objects db !! o_product o = Some p →
  o_status o = OFFERED →
  p_is_available p = true →
  o_vendor o ≠ o_buyer o →
  UpdateOffer (o_vendor o) oid (Some ACCEPTED) None db
    = (inr (oid, set_status ACCEPTED o),
       mkDB (<[o_product o := set_is_available false p]> (Product_objects db))
            (<[oid := set_status ACCEPTED o]> (Order_objects db))) ∧
  ∀ actor st amt r db',
    UpdateOffer actor oid st amt db = (inr r, db') →
    p_is_available <$> Product_objects db' !! o_product o
      = Some (bool_decide (o_status r.2 ∈ available)).
Proof.
  intros Ho Hp Hst Hav Hne. split.
  - rewrite (UpdateOffer_eq _ _ _ _ _ o p) by done.
    unfold update_outcome, updated_row. simpl.
    rewrite (bool_decide_eq_false_2 (o_vendor o = o_buyer o)) by done.
    rewrite (bool_decide_eq_true_2 (o_vendor o = o_vendor o)) by done.
    simpl. rewrite (bool_decide_eq_false_2 (o_vendor o = o_buyer o)) by done.
    by rewrite Hav.
  - intros actor st amt r db' Hrun.
    destruct (UpdateOffer_inr _ _ _ _ _ _ _ Hrun)
      as (o0 & p0 & Ho0 & _ & _ & _ & Hr & _).
    rewrite Ho in Ho0. injection Ho0 as <-.
    destruct (UpdateOffer_reconciles _ _ _ _ _ _ _ Hrun)
      as (_ & p1 & Hp1 & Hflag).
    rewrite Hr in Hp1. simpl in Hp1. rewrite updated_row_product in Hp1.
    by rewrite Hp1, <- Hflag.
Qed.

Lemma vendor_accepts_offer_witness :
  UpdateOffer 2 0 (Some ACCEPTED) None shop_offered
    = (inr (0, mkOrder 7 1 2 ACCEPTED 80), shop_accepted) ∧
  ∀ actor st amt r db',
    UpdateOffer actor 0 st amt shop_offered = (inr r, db') →
    p_is_available <$> Product_objects db' !! 7
      = Some (bool_decide (o_status r.2 ∈ available)).
Proof.
  assert (Ho : Order_objects shop_offered !! 0
               = Some (mkOrder 7 1 2 OFFERED 80)) by (by vm_compute).
  assert (Hp : Product_objects shop_offered !! 7
               = Some (mkProduct 100 true 2)) by (by vm_compute).
  assert (Hne : 2 ≠ 1) by lia.
  destruct (vendor_accepts_offer 0 shop_offered _ _ Ho Hp eq_refl eq_refl Hne)
    as [Hacc Hrec].
  split; [|exact Hrec]. simpl in Hacc. rewrite Hacc. by vm_compute.
Defined.

(** C5, counterexample. Vendor 2 has offered 80 for the product it sells
    itself, so it is the vendor and the buyer of order 0, which is OFFERED
    on an available product. Its UpdateOffer with status ACCEPTED and no
    amount does not set the status: [validate] raises the key error. *)
Lemma vendor_who_is_buyer_counterexample :
  CreateOffer PENDING 2 7 (Some 80%Z) shop
    = (inr (0, mkOrder 7 2 2 OFFERED 80), shop_own_offer) ∧
  p_is_available <$> Product_objects shop_own_offer !! 7 = Some true ∧
  UpdateOffer 2 0 (Some ACCEPTED) None shop_own_offer
    = (inl (KeyError "amount"), shop_own_offer) ∧
  o_status <$> Order_objects shop_own_offer !! 0 ≠ Some ACCEPTED.
Proof. repeat split; by vm_compute. Qed.

(** C6. When an order exists for a buyer and a product, CreateOffer of that
    buyer for that product fails with Conflict whatever the amount, given or
    not, and the store is left as it was; in particular, after a CreateOffer
    that went through, a second one for the same pair fails with Conflict
    and creates no order. *)
Theorem standing_order_conflict ds B P db :
  is_Some (Product_objects db !! P) →
  (∀ amt,
     (∃ i o, Order_objects db !! i = Some o ∧ o_buyer o = B ∧ o_product o = P) →
     CreateOffer ds B P amt db
       = (inl (MethodNotAllowed AlreadyInOrders), db)) ∧
  (∀ a1 a2 r db1,
     CreateOffer ds B P a1 db = (inr r, db1) →
     CreateOffer ds B P a2 db1
       = (inl (MethodNotAllowed AlreadyInOrders), db1)) ∧
  error_kind (MethodNotAllowed AlreadyInOrders) = Some Conflict.
Proof.
  intros [p Hp]. split; [|split; [|done]].
  - intros amt Hex. by apply (CreateOffer_standing _ _ _ p).
  - intros a1 a2 r db1 Hrun.
    destruct (CreateOffer_inr _ _ _ _ _ _ _ Hrun)
      as (p0 & a & Hp0 & -> & Hle & Hav & -> & ->). simpl.
    eapply CreateOffer_standing; simpl.
    + by rewrite lookup_insert_eq.
    + eexists _, _. split; [by rewrite lookup_insert_eq|]. done.
Qed.

Lemma standing_order_conflict_witness :
  is_Some (Product_objects shop_offered !! 7) ∧
  CreateOffer PENDING 1 7 None shop_offered
    = (inl (MethodNotAllowed AlreadyInOrders), shop_offered) ∧
  CreateOffer PENDING 1 7 (Some 80%Z) shop
    = (inr (0, mkOrder 7 1 2 OFFERED 80), shop_offered) ∧
  CreateOffer PENDING 1 7 (Some 80%Z) shop_offered
    = (inl (MethodNotAllowed AlreadyInOrders), shop_offered).
Proof.
  assert (Hp : is_Some (Product_objects shop_offered !! 7))
    by (by exists (mkProduct 100 true 2); vm_compute).
  assert (Hp0 : is_Some (Product_objects shop !! 7))
    by (by exists (mkProduct 100 true 2); vm_compute).
  assert (Hrun : CreateOffer PENDING 1 7 (Some 80%Z) shop
                 = (inr (0, mkOrder 7 1 2 OFFERED 80), shop_offered))
    by (by vm_compute).
  split; [exact Hp|]. split; [|split; [exact Hrun|]].
  - apply (standing_order_conflict PENDING 1 7 shop_offered Hp).
    exists 0, (mkOrder 7 1 2 OFFERED 80). clear. by vm_compute.
  - exact (proj1 (proj2 (standing_order_conflict PENDING 1 7 shop Hp0))
             (Some 80%Z) (Some 80%Z) _ _ Hrun).
Defined.

(** C7, the code at the failing input. On a shop whose product is listed at
    90000000000000.01, an offer of 90000000000000.02 is above the price but
    has the same cast to [float]: [validate] lets it through and [create]
    stores it as PROCESSING and closes the product, where the claim has the
    call fail with Conflict and change nothing. *)
Theorem offer_above_price_accepted ds :
  (9000000000000001 < 9000000000000002)%Z ∧
  CreateOffer ds 1 7 (Some 9000000000000002%Z) shop_dear
    = (inr (0, mkOrder 7 1 2 PROCESSING 9000000000000002),
       mkDB {[ 7 := mkProduct 9000000000000001 false 2 ]}
            {[ 0 := mkOrder 7 1 2 PROCESSING 9000000000000002 ]}).
Proof.
  split; [done|].
  rewrite (CreateOffer_eq _ _ _ _ _ (mkProduct 9000000000000001 true 2))
    by done.
  by vm_compute.
Qed.

(** C8 (as the code has it). Re-issuing a status-only UpdateOffer leaves the
    store as it was after the first application. When the first application
    went through, the second one returns the same order again if the status
    of the order is then in [available], and is rejected with NotFound if it
    is in [sold]; for the vendor of the order, not its buyer, that status is
    the requested one. *)
Theorem status_update_repeated actor oid st db r db1 :
  UpdateOffer actor oid (Some st) None db = (r, db1) →
  (UpdateOffer actor oid (Some st) None db1).2 = db1 ∧
  ∀ o1, r = inr o1 →
    UpdateOffer actor oid (Some st) None db1
      = (if bool_decide (o_status o1.2 ∈ available)
         then inr o1 else inl NotFound, db1) ∧
    ∀ o, Order_objects db !! oid = Some o → actor = o_vendor o →
         o_status o1.2 = st.
Proof.
  intros Hrun. destruct r as [e|o1].
  - pose proof (UpdateOffer_inl _ _ _ _ _ _ _ Hrun) as ->.
    rewrite Hrun. by split.
  - destruct (UpdateOffer_inr _ _ _ _ _ _ _ Hrun)
      as (o & p & Ho & Hp & Hav & Hamt & -> & ->). clear Hrun. simpl.
    assert (Hne : actor ≠ o_buyer o).
    { intros Heq. by destruct (Hamt Heq) as (a & ? & _). }
    rewrite updated_row_status_only by done.
    set (o1 := if bool_decide (actor = o_vendor o) then set_status st o else o).
    assert (Hprod : o_product o1 = o_product o)
      by (unfold o1; by destruct (bool_decide (actor = o_vendor o))).
    assert (Hbuy : o_buyer o1 = o_buyer o)
      by (unfold o1; by destruct (bool_decide (actor = o_vendor o))).
    assert (Hidem : updated_row actor o1 (p_price p) (Some st) None = o1).
    { rewrite updated_row_status_only by (by rewrite Hbuy).
      assert (Hvend : o_vendor o1 = o_vendor o)
        by (unfold o1; by destruct (bool_decide (actor = o_vendor o))).
      rewrite Hvend. unfold o1.
      by destruct (bool_decide (actor = o_vendor o)). }
    set (b := bool_decide (o_status o1 ∈ available)).
    assert (Hagain :
      UpdateOffer actor oid (Some st) None
        (mkDB (<[o_product o := set_is_available b p]> (Product_objects db))
              (<[oid := o1]> (Order_objects db)))
      = (if b then inr (oid, o1) else inl NotFound,
         mkDB (<[o_product o := set_is_available b p]> (Product_objects db))
              (<[oid := o1]> (Order_objects db)))).
    { rewrite (UpdateOffer_eq _ _ _ _ _ o1 (set_is_available b p)); simpl.
      - unfold update_outcome. rewrite Hbuy.
        rewrite (bool_decide_eq_false_2 (actor = o_buyer o)) by done.
        simpl. rewrite Hidem, Hprod. fold b.
        destruct b; [|done].
        by rewrite !insert_insert_eq.
      - by rewrite lookup_insert_eq.
      - by rewrite Hprod, lookup_insert_eq. }
    split; [by rewrite Hagain|].
    intros ? [= <-]. split; [done|].
    intros o0 Ho0 ->. rewrite Ho in Ho0. injection Ho0 as ->.
    simpl. unfold o1. by rewrite bool_decide_eq_true_2.
Qed.

Lemma status_update_repeated_witness :
  UpdateOffer 2 0 (Some DENIED) None shop_offered
    = (inr (0, mkOrder 7 1 2 DENIED 80),
       mkDB {[ 7 := mkProduct 100 true 2 ]}
            {[ 0 := mkOrder 7 1 2 DENIED 80 ]}) ∧
  UpdateOffer 2 0 (Some DENIED) None
      (mkDB {[ 7 := mkProduct 100 true 2 ]} {[ 0 := mkOrder 7 1 2 DENIED 80 ]})
    = (inr (0, mkOrder 7 1 2 DENIED 80),
       mkDB {[ 7 := mkProduct 100 true 2 ]}
            {[ 0 := mkOrder 7 1 2 DENIED 80 ]}).
Proof.
  assert (Hrun : UpdateOffer 2 0 (Some DENIED) None shop_offered
    = (inr (0, mkOrder 7 1 2 DENIED 80),
       mkDB {[ 7 := mkProduct 100 true 2 ]}
            {[ 0 := mkOrder 7 1 2 DENIED 80 ]})) by (by vm_compute).
  split; [exact Hrun|].
  destruct (status_update_repeated _ _ _ _ _ _ Hrun) as [_ Hsecond].
  destruct (Hsecond _ eq_refl) as [Hagain _].
  rewrite Hagain. by vm_compute.
Defined.

(** C8, counterexample. Vendor 2 accepts order 0; the same call issued a
    second time does not succeed, it is rejected with NotFound. *)
Lemma vendor_accepting_twice_counterexample :
  UpdateOffer 2 0 (Some ACCEPTED) None shop_offered
    = (inr (0, mkOrder 7 1 2 ACCEPTED 80), shop_accepted) ∧
  UpdateOffer 2 0 (Some ACCEPTED) None shop_accepted
    = (inl NotFound, shop_accepted) ∧
  ¬ ∃ r db', UpdateOffer 2 0 (Some ACCEPTED) None shop_accepted = (inr r, db').
Proof.
  assert (H : UpdateOffer 2 0 (Some ACCEPTED) None shop_accepted
              = (inl NotFound, shop_accepted)) by (by vm_compute).
  split; [by vm_compute|]. split; [done|].
  intros (r & db' & Hr). by rewrite H in Hr.
Qed.

(** C9. An UpdateOffer whose actor is neither the buyer nor the vendor of the
    order leaves the order table as it was, the order with its status and
    amount included; when the call returns, it returns the order unchanged,
    and it does return when the product is available. *)
Theorem outsider_update_keeps_order actor oid st amt db o :
  Order_objects db !! oid = Some o →
  actor ≠ o_buyer o →
  actor ≠ o_vendor o →
  Order_objects (UpdateOffer actor oid st amt db).2 = Order_objects db ∧
  (∀ r, (UpdateOffer actor oid st amt db).1 = inr r → r = (oid, o)) ∧
  (∀ p, Product_objects db !! o_product o = Some p →
        p_is_available p = true →
        (UpdateOffer actor oid st amt db).1 = inr (oid, o)).
Proof.
  intros Ho Hb Hv.
  assert (Hrow : ∀ price, updated_row actor o price st amt = o).
  { intros price. unfold updated_row.
    rewrite (bool_decide_eq_false_2 (actor = o_vendor o)) by done.
    simpl. by rewrite (bool_decide_eq_false_2 (actor = o_buyer o)). }
  destruct (Product_objects db !! o_product o) as [p|] eqn:Hp.
  - rewrite (UpdateOffer_eq _ _ _ _ _ o p) by done.
    unfold update_outcome.
    rewrite (bool_decide_eq_false_2 (actor = o_buyer o)) by done.
    rewrite Hrow.
    destruct (p_is_available p) eqn:Hav; simpl.
    + split; [by apply insert_id|]. split; [by intros ? [= <-]|done].
    + split; [done|]. split; [done|]. intros ? [= <-] ?. congruence.
  - rewrite (UpdateOffer_no_product _ _ _ _ _ o) by done. simpl.
    by repeat split.
Qed.

Lemma outsider_update_keeps_order_witness :
  Order_objects shop_offered !! 0 = Some (mkOrder 7 1 2 OFFERED 80) ∧
  3 ≠ 1 ∧ 3 ≠ 2 ∧
  Order_objects (UpdateOffer 3 0 (Some ACCEPTED) (Some 100%Z) shop_offered).2
    = Order_objects shop_offered ∧
  (UpdateOffer 3 0 (Some ACCEPTED) (Some 100%Z) shop_offered).1
    = inr (0, mkOrder 7 1 2 OFFERED 80).
Proof.
  assert (Ho : Order_objects shop_offered !! 0
               = Some (mkOrder 7 1 2 OFFERED 80)) by (by vm_compute).
  assert (Hb : 3 ≠ 1) by lia. assert (Hv : 3 ≠ 2) by lia.
  destruct (outsider_update_keeps_order 3 0 (Some ACCEPTED) (Some 100%Z)
              shop_offered _ Ho Hb Hv) as (Hsame & _ & Hret).
  split; [exact Ho|]. split; [exact Hb|]. split; [exact Hv|].
  split; [exact Hsame|].
  apply (Hret (mkProduct 100 true 2)); by vm_compute.
Defined.

(** C10 (as the code has it). [validate] reads the amount of the payload
    without checking that it is there: a CreateOffer without amount, for a
    product on which the buyer has no order, and an UpdateOffer of the buyer
    without amount raise the key error, which is none of the error kinds,
    and the store is left as it was. *)
Theorem missing_amount_key_error ds db :
  (∀ B P p,
     Product_objects db !! P = Some p →
     ¬ (∃ i o, Order_objects db !! i = Some o ∧ o_buyer o = B ∧ o_product o = P) →
     CreateOffer ds B P None db = (inl (KeyError "amount"), db)) ∧
  (∀ oid o p st,
     Order_objects db !! oid = Some o →
     Product_objects db !! o_product o = Some p →
     UpdateOffer (o_buyer o) oid st None db = (inl (KeyError "amount"), db)) ∧
  error_kind (KeyError "amount") = None.
Proof.
  split; [|split; [|done]].
  - intros B P p Hp Hno. by apply (CreateOffer_no_amount _ _ _ p).
  - intros oid o p st Ho Hp. rewrite (UpdateOffer_eq _ _ _ _ _ o p) by done.
    unfold update_outcome. by rewrite bool_decide_eq_true_2.
Qed.

Lemma missing_amount_key_error_witness :
  CreateOffer PENDING 1 7 None shop = (inl (KeyError "amount"), shop) ∧
  UpdateOffer 1 0 (Some ACCEPTED) None shop_offered
    = (inl (KeyError "amount"), shop_offered).
Proof.
  split.
  - apply (proj1 (missing_amount_key_error PENDING shop) 1 7
             (mkProduct 100 true 2)); [by vm_compute|].
    intros (i & o & Ho & _). simpl in Ho. by rewrite lookup_empty in Ho.
  - apply (proj1 (proj2 (missing_amount_key_error PENDING shop_offered))
             0 (mkOrder 7 1 2 OFFERED 80) (mkProduct 100 true 2)
             (Some ACCEPTED)); by vm_compute.
Defined.

(** C10, counterexample. Buyer 1 already holds order 0 on product 7: its
    CreateOffer without amount does not raise the key error, the existence
    check comes first and the call fails with Conflict. *)
Lemma create_without_amount_standing_counterexample :
  CreateOffer PENDING 1 7 None shop_offered
    = (inl (MethodNotAllowed AlreadyInOrders), shop_offered) ∧
  error_kind (MethodNotAllowed AlreadyInOrders) = Some Conflict ∧
  (CreateOffer PENDING 1 7 None shop_offered).1 ≠ inl (KeyError "amount").
Proof. repeat split; by vm_compute. Qed.

(** ** Further properties of the serializer *)

(** *** [validate] *)

(** X1. [validate] only reads the store, and when it returns it returns the
    data it was given. *)
Theorem validate_reads_only method user instance data db :
  (validate method user instance data db).2 = db ∧
  ((validate method user instance data db).1 = inr data ∨
   ∃ e, (validate method user instance data db).1 = inl e).
Proof.
  unfold_ops.
  destruct (bool_decide (method = "POST")), (bool_decide (method = "PUT")),
    instance as [[oid o]|], (d_buyer data) as [b|],
    (d_product data) as [[pid q]|], (d_amount data) as [a|]; simpl;
    repeat (match goal with
            | |- context [bool_decide ?P] => destruct (bool_decide P); simpl
            | |- context [p_is_available ?q] =>
                destruct (p_is_available q); simpl
            end); eauto.
Qed.

(** X2. On a POST the keys of the payload are read in the order buyer,
    product: a payload without buyer raises the key error on the buyer, one
    with a buyer and without product the key error on the product, whatever
    else it holds. *)
Theorem validate_POST_missing_keys user instance data db :
  (d_buyer data = None →
   validate "POST" user instance data db = (inl (KeyError "buyer"), db)) ∧
  (is_Some (d_buyer data) → d_product data = None →
   validate "POST" user instance data db = (inl (KeyError "product"), db)).
Proof.
  split.
  - intros Hb. unfold_ops. by rewrite Hb.
  - intros [b Hb] Hp. unfold_ops. by rewrite Hb, Hp.
Qed.

Lemma validate_POST_missing_keys_witness :
  validate "POST" 1 None (mkData None None None (Some 80%Z)) shop
    = (inl (KeyError "buyer"), shop) ∧
  validate "POST" 1 None (mkData None (Some 1) None (Some 80%Z)) shop
    = (inl (KeyError "product"), shop).
Proof.
  split.
  - by apply (proj1 (validate_POST_missing_keys 1 None
                       (mkData None None None (Some 80%Z)) shop)).
  - apply (proj2 (validate_POST_missing_keys 1 None
                    (mkData None (Some 1) None (Some 80%Z)) shop));
      [by exists 1 | done].
Defined.

(** X3. On a method that is neither POST nor PUT, a PATCH for one, neither
    the existing orders nor the amount are looked at: the outcome is decided
    by the product of the payload alone, so that an amount above the price
    passes. *)
Theorem validate_other_method method user instance data db :
  method ≠ "POST" → method ≠ "PUT" →
  validate method user instance data db =
    (match d_product data with
     | None => inl (KeyError "product")
     | Some product =>
         if p_is_available product.2 then inr data else inl NotFound
     end, db).
Proof.
  intros Hpost Hput. unfold_ops.
  rewrite (bool_decide_eq_false_2 (method = "POST")) by done.
  rewrite (bool_decide_eq_false_2 (method = "PUT")) by done. simpl.
  destruct (d_product data) as [[pid q]|]; simpl; [|done].
  by destruct (p_is_available q).
Qed.

Lemma validate_other_method_witness :
  validate "PATCH" 1 (Some (0, mkOrder 7 1 2 OFFERED 80))
      (mkData (Some (7, mkProduct 100 true 2)) (Some 1) None (Some 150%Z))
      shop_offered
    = (inr (mkData (Some (7, mkProduct 100 true 2)) (Some 1) None
              (Some 150%Z)), shop_offered).
Proof.
  by apply (validate_other_method "PATCH" 1 (Some (0, mkOrder 7 1 2 OFFERED 80))
              (mkData (Some (7, mkProduct 100 true 2)) (Some 1) None
                 (Some 150%Z)) shop_offered).
Defined.

(** *** [create] *)

(** [create] on a product of the table, whatever the validated data. *)
Lemma create_general ds user pid vd db p :
  Product_objects db !! pid = Some p →
  create ds user (Some pid) vd db =
    let a := default (p_price p) (d_amount vd) in
    let id := fresh (dom (Order_objects db)) in
    let st :=
      if bool_decide (float a = float (p_price p)) then PROCESSING
      else if bool_decide (float a < float (p_price p))%Z then OFFERED
      else ds in
    let o := mkOrder pid user (p_seller p) st a in
    (inr (id, o),
     mkDB (if bool_decide (st = PROCESSING)
           then <[pid := set_is_available false p]> (Product_objects db)
           else if bool_decide (st = OFFERED)
           then <[pid := set_is_available true p]> (Product_objects db)
           else Product_objects db)
          (<[id := o]> (Order_objects db))).
Proof.
  intros Hp. unfold_ops. rewrite Hp; simpl.
  set (a := default (p_price p) (d_amount vd)).
  destruct (decide (float a < float (p_price p))%Z) as [Hlt|Hge].
  - rewrite (bool_decide_eq_true_2 _ Hlt); simpl.
    rewrite (bool_decide_eq_false_2 (float a = float (p_price p))) by lia;
      simpl.
    rewrite (alter_present _ _ _ p) by done.
    by rewrite insert_insert_eq.
  - rewrite (bool_decide_eq_false_2 _ Hge); simpl.
    destruct (decide (float a = float (p_price p))) as [Heq|Hne].
    + rewrite (bool_decide_eq_true_2 _ Heq); simpl.
      rewrite (alter_present _ _ _ p) by done.
      by rewrite insert_insert_eq.
    + rewrite (bool_decide_eq_false_2 _ Hne); simpl.
      destruct ds; simpl; rewrite ?(alter_present _ _ _ p) by done;
        by rewrite insert_insert_eq.
Qed.

(** X4. Validated data without amount: [create] takes the price of the
    product as the amount, whatever status or buyer the data carry; the
    order is PROCESSING, its buyer is the requesting user, and the product
    is made unavailable. *)
Theorem create_defaults_amount_to_price ds user pid vd db p :
  Product_objects db !! pid = Some p →
  d_amount vd = None →
  create ds user (Some pid) vd db =
    (inr (fresh (dom (Order_objects db)),
          mkOrder pid user (p_seller p) PROCESSING (p_price p)),
     mkDB (<[pid := set_is_available false p]> (Product_objects db))
          (<[fresh (dom (Order_objects db)) :=
              mkOrder pid user (p_seller p) PROCESSING (p_price p)]>
             (Order_objects db))).
Proof.
  intros Hp Ha. rewrite (create_general _ _ _ _ _ p) by done.
  rewrite Ha. simpl. by rewrite bool_decide_eq_true_2.
Qed.

Lemma create_defaults_amount_to_price_witness :
  create PENDING 1 (Some 7)
      (mkData (Some (7, mkProduct 100 true 2)) (Some 3) (Some COMPLETED) None)
      shop
    = (inr (0, mkOrder 7 1 2 PROCESSING 100),
       mkDB {[ 7 := mkProduct 100 false 2 ]}
            {[ 0 := mkOrder 7 1 2 PROCESSING 100 ]}).
Proof.
  rewrite (create_defaults_amount_to_price PENDING 1 7
             (mkData (Some (7, mkProduct 100 true 2)) (Some 3)
                (Some COMPLETED) None)
             shop (mkProduct 100 true 2)); by vm_compute.
Defined.

(** X5. [create] does not itself reject an amount that is too high: handed
    data whose amount, cast to [float], exceeds the cast of the price, it
    creates the order with that amount and leaves its status at the default
    of the column; the product is then touched only if that default is
    PROCESSING or OFFERED. *)
Theorem create_above_price_keeps_default ds user pid vd db p a :
  Product_objects db !! pid = Some p →
  d_amount vd = Some a →
  (float (p_price p) < float a)%Z →
  ∃ db',
    create ds user (Some pid) vd db =
      (inr (fresh (dom (Order_objects db)),
            mkOrder pid user (p_seller p) ds a), db') ∧
    Order_objects db' !! fresh (dom (Order_objects db))
      = Some (mkOrder pid user (p_seller p) ds a) ∧
    (ds ≠ PROCESSING → ds ≠ OFFERED → Product_objects db' = Product_objects db).
Proof.
  intros Hp Ha Hgt. rewrite (create_general _ _ _ _ _ p) by done.
  rewrite Ha. simpl.
  rewrite (bool_decide_eq_false_2 (float a = float (p_price p))) by lia.
  rewrite (bool_decide_eq_false_2 (float a < float (p_price p))%Z) by lia.
  eexists. split; [done|]. simpl. split; [by rewrite lookup_insert_eq|].
  intros H1 H2. by rewrite !bool_decide_eq_false_2.
Qed.

Lemma create_above_price_keeps_default_witness :
  ∃ db',
    create PENDING 1 (Some 7)
        (mkData (Some (7, mkProduct 100 true 2)) (Some 1) None (Some 150%Z))
        shop
      = (inr (fresh (dom (Order_objects shop)), mkOrder 7 1 2 PENDING 150),
         db') ∧
    Order_objects db' !! fresh (dom (Order_objects shop))
      = Some (mkOrder 7 1 2 PENDING 150) ∧
    (PENDING ≠ PROCESSING → PENDING ≠ OFFERED →
     Product_objects db' = Product_objects shop).
Proof.
  apply (create_above_price_keeps_default PENDING 1 7
           (mkData (Some (7, mkProduct 100 true 2)) (Some 1) None
              (Some 150%Z))
           shop (mkProduct 100 true 2) 150);
    [by vm_compute | done | by vm_compute].
Defined.

(** X6. When the request names no product, or one that is not in the table,
    [create] raises DoesNotExist and writes nothing. *)
Theorem create_unknown_product ds user request_data_product vd db :
  (∀ pid, request_data_product = Some pid →
          Product_objects db !! pid = None) →
  create ds user request_data_product vd db = (inl DoesNotExist, db).
Proof.
  intros Hno. unfold_ops.
  destruct request_data_product as [pid|]; simpl; [|done].
  by rewrite (Hno pid).
Qed.

Lemma create_unknown_product_witness :
  create PENDING 1 (Some 9)
      (mkData (Some (7, mkProduct 100 true 2)) (Some 1) None (Some 80%Z)) shop
    = (inl DoesNotExist, shop).
Proof.
  apply (create_unknown_product PENDING 1 (Some 9)
           (mkData (Some (7, mkProduct 100 true 2)) (Some 1) None (Some 80%Z))
           shop).
  intros pid [= <-]. by vm_compute.
Defined.

(** *** The two operations *)

Lemma fresh_order_key (db : DB) :
  Order_objects db !! fresh (dom (Order_objects db)) = None.
Proof. apply not_elem_of_dom, is_fresh. Qed.

(** X7. An offer whose cast to [float] does not exceed the cast of the
    price, on an available product on which the buyer has no order, is
    accepted: the order is stored under a key that was free, with the actor
    as buyer and the seller of the product as vendor; when the cast is below
    the one of the price it is OFFERED and the product table is left as it
    was, when the casts are equal it is PROCESSING and the product is made
    unavailable. *)
Theorem CreateOffer_accepted ds B P p a db :
  Product_objects db !! P = Some p →
  p_is_available p = true →
  ¬ (∃ i o, Order_objects db !! i = Some o ∧ o_buyer o = B ∧ o_product o = P) →
  (float a ≤ float (p_price p))%Z →
  ∃ id db',
    Order_objects db !! id = None ∧
    CreateOffer ds B P (Some a) db
      = (inr (id, mkOrder P B (p_seller p)
                    (if bool_decide (float a < float (p_price p))%Z
                     then OFFERED else PROCESSING) a), db') ∧
    Order_objects db'
      = <[id := mkOrder P B (p_seller p)
                  (if bool_decide (float a < float (p_price p))%Z
                   then OFFERED else PROCESSING) a]> (Order_objects db) ∧
    Product_objects db'
      = (if bool_decide (float a < float (p_price p))%Z
         then Product_objects db
         else <[P := set_is_available false p]> (Product_objects db)).
Proof.
  intros Hp Hav Hno Hle.
  exists (fresh (dom (Order_objects db))). eexists.
  split; [apply fresh_order_key|].
  rewrite (CreateOffer_eq _ _ _ _ _ p) by done. unfold create_outcome.
  rewrite (bool_decide_eq_false_2 (map_Exists _ _)) by done.
  rewrite (bool_decide_eq_false_2 (float (p_price p) < float a)%Z) by lia.
  rewrite Hav. split; [done|]. simpl. split; [done|].
  destruct (bool_decide (float a < float (p_price p))%Z); [|done].
  apply insert_id. rewrite Hp. f_equal. by destruct p; simplify_eq/=.
Qed.

Lemma CreateOffer_accepted_witness :
  ∃ id db',
    Order_objects shop !! id = None ∧
    CreateOffer PENDING 1 7 (Some 80%Z) shop
      = (inr (id, mkOrder 7 1 2 OFFERED 80), db') ∧
    Order_objects db' = <[id := mkOrder 7 1 2 OFFERED 80]> (Order_objects shop) ∧
    Product_objects db' = Product_objects shop.
Proof.
  assert (Hlt : bool_decide (float 80 < float 100)%Z = true)
    by (by vm_compute).
  destruct (CreateOffer_accepted PENDING 1 7 (mkProduct 100 true 2) 80 shop)
    as (id & db' & Hid & Hrun & Ho & Hp).
  - by vm_compute.
  - done.
  - intros (i & o & Ho & _). simpl in Ho. by rewrite lookup_empty in Ho.
  - by vm_compute.
  - simpl in Hrun, Ho, Hp. rewrite Hlt in Hrun, Ho, Hp.
    exists id, db'. split; [exact Hid|]. split; [exact Hrun|].
    split; [exact Ho|exact Hp].
Defined.

(** X20. CreateOffer with an amount whose cast to [float] exceeds the cast
    of the price fails with Conflict and leaves the store as it was: no
    order is created and no product is changed. *)
Theorem CreateOffer_cast_above_price ds B P p a db :
  Product_objects db !! P = Some p →
  (float (p_price p) < float a)%Z →
  ∃ d, CreateOffer ds B P (Some a) db = (inl (MethodNotAllowed d), db) ∧
       error_kind (MethodNotAllowed d) = Some Conflict.
Proof.
  intros Hp Hgt. rewrite (CreateOffer_eq _ _ _ _ _ p) by done.
  unfold create_outcome.
  destruct (bool_decide (map_Exists _ _)); [by eexists|].
  rewrite bool_decide_eq_true_2 by done. by eexists.
Qed.

Lemma CreateOffer_cast_above_price_witness :
  ∃ d, CreateOffer PENDING 1 7 (Some 150%Z) shop
         = (inl (MethodNotAllowed d), shop) ∧
       error_kind (MethodNotAllowed d) = Some Conflict.
Proof.
  apply (CreateOffer_cast_above_price PENDING 1 7 (mkProduct 100 true 2) 150
           shop); by vm_compute.
Defined.

(** X8. A buyer's UpdateOffer whose amount, cast to [float], exceeds the
    cast of the price fails with Conflict and changes nothing, whether the
    product is available or not and whatever status the payload carries. *)
Theorem buyer_update_above_price oid st a db o p :
  Order_objects db !! oid = Some o →
  Product_objects db !! o_product o = Some p →
  (float (p_price p) < float a)%Z →
  UpdateOffer (o_buyer o) oid st (Some a) db
    = (inl (MethodNotAllowed (OfferTooHigh (p_price p))), db).
Proof.
  intros Ho Hp Hgt. rewrite (UpdateOffer_eq _ _ _ _ _ o p) by done.
  unfold update_outcome.
  rewrite (bool_decide_eq_true_2 (o_buyer o = o_buyer o)) by done.
  by rewrite (bool_decide_eq_true_2 (float (p_price p) < float a)%Z).
Qed.

Lemma buyer_update_above_price_witness :
  UpdateOffer 1 0 None (Some 150%Z) shop_offered
    = (inl (MethodNotAllowed (OfferTooHigh 100)), shop_offered).
Proof.
  apply (buyer_update_above_price 0 None 150 shop_offered
           (mkOrder 7 1 2 OFFERED 80) (mkProduct 100 true 2));
    by vm_compute.
Defined.

Lemma CreateOffer_inl ds actor pid amt db e db' :
  CreateOffer ds actor pid amt db = (inl e, db') → db' = db.
Proof.
  intros Hrun.
  destruct (Product_objects db !! pid) as [p|] eqn:Hp;
    [|rewrite CreateOffer_no_product in Hrun by done; by injection Hrun].
  rewrite (CreateOffer_eq _ _ _ _ _ p) in Hrun by done.
  unfold create_outcome in Hrun.
  destruct (bool_decide (map_Exists _ _)); [by injection Hrun|].
  destruct amt as [a|]; [|by injection Hrun].
  destruct (bool_decide (float (p_price p) < float a)%Z); [by injection Hrun|].
  destruct (p_is_available p); [done|by injection Hrun].
Qed.

Lemma run_inl ds op db e db' :
  run ds op db = (inl e, db') → db' = db.
Proof.
  destruct op; simpl.
  - apply CreateOffer_inl.
  - apply UpdateOffer_inl.
Qed.

(** X9. A request that fails leaves the store as it was: nothing is written
    before [validate] is through, and nothing raises after it. *)
Theorem failed_request_changes_nothing ds op db e db' :
  run ds op db = (inl e, db') → db' = db.
Proof. apply run_inl. Qed.

Lemma failed_request_changes_nothing_witness :
  (run PENDING (Update 1 0 None (Some 99%Z)) shop_sold).2 = shop_sold.
Proof.
  apply (failed_request_changes_nothing PENDING (Update 1 0 None (Some 99%Z))
           shop_sold NotFound).
  by vm_compute.
Defined.

Lemma updated_row_buyer actor o price st amt :
  o_buyer (updated_row actor o price st amt) = o_buyer o.
Proof. unfold updated_row. by repeat (case_bool_decide; simpl). Qed.

Lemma updated_row_vendor actor o price st amt :
  o_vendor (updated_row actor o price st amt) = o_vendor o.
Proof. unfold updated_row. by repeat (case_bool_decide; simpl). Qed.

(** X10. UpdateOffer neither adds nor removes an order and leaves every
    other order as it is; the order it is issued on keeps its product, its
    buyer and its vendor. *)
Theorem UpdateOffer_orders_frame actor oid st amt db r db' :
  UpdateOffer actor oid st amt db = (r, db') →
  dom (Order_objects db') = dom (Order_objects db) ∧
  (∀ j, j ≠ oid → Order_objects db' !! j = Order_objects db !! j) ∧
  (∀ o o',
     Order_objects db !! oid = Some o → Order_objects db' !! oid = Some o' →
     o_product o' = o_product o ∧ o_buyer o' = o_buyer o ∧
     o_vendor o' = o_vendor o).
Proof.
  intros Hrun. destruct r as [e|r].
  - rewrite (UpdateOffer_inl _ _ _ _ _ _ _ Hrun).
    split; [done|]. split; [done|].
    intros o o' Ho Ho'. rewrite Ho in Ho'. by injection Ho' as <-.
  - destruct (UpdateOffer_inr _ _ _ _ _ _ _ Hrun)
      as (o & p & Ho & Hp & Hav & _ & -> & ->). clear Hrun. simpl.
    split; [|split].
    + by apply dom_insert_lookup_L.
    + intros j Hj. by rewrite lookup_insert_ne.
    + intros o0 o' Ho0 Ho'. rewrite Ho in Ho0. injection Ho0 as <-.
      rewrite lookup_insert_eq in Ho'. injection Ho' as <-.
      by rewrite updated_row_product, updated_row_buyer, updated_row_vendor.
Qed.

Lemma UpdateOffer_orders_frame_witness :
  dom (Order_objects shop_accepted) = dom (Order_objects shop_offered) ∧
  (∀ j, j ≠ 0 → Order_objects shop_accepted !! j
                 = Order_objects shop_offered !! j) ∧
  (∀ o o',
     Order_objects shop_offered !! 0 = Some o →
     Order_objects shop_accepted !! 0 = Some o' →
     o_product o' = o_product o ∧ o_buyer o' = o_buyer o ∧
     o_vendor o' = o_vendor o).
Proof.
  apply (UpdateOffer_orders_frame 2 0 (Some ACCEPTED) None shop_offered
           (inr (0, mkOrder 7 1 2 ACCEPTED 80)) shop_accepted).
  by vm_compute.
Defined.

Lemma run_products ds op db r db' k :
  run ds op db = (r, db') →
  Product_objects db' !! k = Product_objects db !! k ∨
  ∃ o p,
    r = inr o ∧ k = o_product o.2 ∧
    Product_objects db !! k = Some p ∧ p_is_available p = true ∧
    Product_objects db' !! k
      = Some (set_is_available (bool_decide (o_status o.2 ∈ available)) p).
Proof.
  intros Hrun. destruct r as [e|r].
  { left. by rewrite (run_inl _ _ _ _ _ Hrun). }
  destruct op as [actor pid amt|actor oid st amt]; simpl in Hrun.
  - destruct (CreateOffer_inr _ _ _ _ _ _ _ Hrun)
      as (p & a & Hp & -> & Hle & Hav & -> & ->). clear Hrun. simpl.
    destruct (decide (k = pid)) as [->|Hne];
      [|left; by rewrite lookup_insert_ne].
    right. exists (fresh (dom (Order_objects db)),
                   mkOrder pid actor (p_seller p)
                     (if bool_decide (float a < float (p_price p))%Z
                      then OFFERED else PROCESSING) a), p.
    simpl. rewrite lookup_insert_eq. repeat split; try done.
    by case_bool_decide.
  - destruct (UpdateOffer_inr _ _ _ _ _ _ _ Hrun)
      as (o & p & Ho & Hp & Hav & _ & -> & ->). clear Hrun. simpl.
    destruct (decide (k = o_product o)) as [->|Hne];
      [|left; by rewrite lookup_insert_ne].
    right. eexists (oid, _), p. simpl.
    rewrite lookup_insert_eq, updated_row_product. by repeat split.
Qed.

(** X11. A request changes the product table in at most one row: the product
    of the order it returns, which was available, and of which only the
    flag [is_available] is set, to the one of the status of the order.  No
    product is added or removed, no price and no seller is changed. *)
Theorem request_products_frame ds op db r db' k :
  run ds op db = (r, db') →
  Product_objects db' !! k = Product_objects db !! k ∨
  ∃ o p,
    r = inr o ∧ k = o_product o.2 ∧
    Product_objects db !! k = Some p ∧ p_is_available p = true ∧
    Product_objects db' !! k
      = Some (set_is_available (bool_decide (o_status o.2 ∈ available)) p).
Proof. apply run_products. Qed.

Lemma request_products_frame_witness :
  Product_objects shop_accepted !! 7 = Product_objects shop_offered !! 7 ∨
  ∃ o p,
    inr (0, mkOrder 7 1 2 ACCEPTED 80) = inr (A:=Exn) o ∧ 7 = o_product o.2 ∧
    Product_objects shop_offered !! 7 = Some p ∧ p_is_available p = true ∧
    Product_objects shop_accepted !! 7
      = Some (set_is_available (bool_decide (o_status o.2 ∈ available)) p).
Proof.
  apply (request_products_frame PENDING (Update 2 0 (Some ACCEPTED) None)
           shop_offered (inr (0, mkOrder 7 1 2 ACCEPTED 80)) shop_accepted 7).
  by vm_compute.
Defined.

(** X12. No request makes an unavailable product available again: a product
    that is unavailable before a CreateOffer or an UpdateOffer is the same
    row after it. *)
Theorem unavailable_stays_unavailable ds op db r db' k p :
  run ds op db = (r, db') →
  Product_objects db !! k = Some p →
  p_is_available p = false →
  Product_objects db' !! k = Some p.
Proof.
  intros Hrun Hk Hav.
  destruct (run_products _ _ _ _ _ k Hrun)
    as [->|(o & p0 & _ & _ & Hp0 & Hav0 & _)]; [done|].
  rewrite Hk in Hp0. injection Hp0 as <-. congruence.
Qed.

Lemma unavailable_stays_unavailable_witness :
  Product_objects (run PENDING (Update 2 0 (Some DENIED) None) shop_sold).2 !! 7
    = Some (mkProduct 100 false 2).
Proof.
  apply (unavailable_stays_unavailable PENDING (Update 2 0 (Some DENIED) None)
           shop_sold
           (run PENDING (Update 2 0 (Some DENIED) None) shop_sold).1);
    by vm_compute.
Defined.

Lemma CreateOffer_inr_no_standing ds actor pid amt db r db' :
  CreateOffer ds actor pid amt db = (inr r, db') →
  ¬ (∃ i o, Order_objects db !! i = Some o ∧
            o_buyer o = actor ∧ o_product o = pid).
Proof.
  intros Hrun Hex.
  destruct (CreateOffer_inr _ _ _ _ _ _ _ Hrun) as (p & _ & Hp & _).
  by rewrite (CreateOffer_standing _ _ _ p) in Hrun.
Qed.

Lemma one_order_per_pair_insert prods prods' (m : gmap nat Order) id o :
  one_order_per_pair (mkDB prods m) →
  (∀ j o', j ≠ id → m !! j = Some o' →
           o_buyer o' = o_buyer o → o_product o' = o_product o → False) →
  one_order_per_pair (mkDB prods' (<[id := o]> m)).
Proof.
  intros Huniq Hnew i j o1 o2 Hi Hj Hb Hpr. simpl in Hi, Hj.
  destruct (decide (i = id)) as [->|Hi'], (decide (j = id)) as [->|Hj'];
    [done| | |].
  - rewrite lookup_insert_eq in Hi. injection Hi as <-.
    rewrite lookup_insert_ne in Hj by done.
    by destruct (Hnew j o2).
  - rewrite lookup_insert_eq in Hj. injection Hj as <-.
    rewrite lookup_insert_ne in Hi by done.
    by destruct (Hnew i o1).
  - rewrite lookup_insert_ne in Hi by done.
    rewrite lookup_insert_ne in Hj by done.
    by apply (Huniq i j o1 o2).
Qed.

(** X13. If no two orders of the store are for the same buyer and product,
    the same holds after any request: CreateOffer adds an order only for a
    pair that has none, and UpdateOffer changes neither the buyer nor the
    product of an order. *)
Theorem one_order_per_pair_kept ds op db r db' :
  one_order_per_pair db →
  run ds op db = (r, db') →
  one_order_per_pair db'.
Proof.
  intros Huniq Hrun. destruct r as [e|r].
  { by rewrite (run_inl _ _ _ _ _ Hrun). }
  destruct db as [prods m].
  destruct op as [actor pid amt|actor oid st amt]; simpl in Hrun.
  - pose proof (CreateOffer_inr_no_standing _ _ _ _ _ _ _ Hrun) as Hno.
    destruct (CreateOffer_inr _ _ _ _ _ _ _ Hrun)
      as (p & a & Hp & -> & Hle & Hav & -> & ->). clear Hrun. simpl in *.
    apply (one_order_per_pair_insert prods); [done|].
    intros j o' _ Hj Hb Hpr. apply Hno. by exists j, o'.
  - destruct (UpdateOffer_inr _ _ _ _ _ _ _ Hrun)
      as (o0 & p & Ho & Hp & Hav & _ & -> & ->). clear Hrun. simpl in *.
    apply (one_order_per_pair_insert prods); [done|].
    intros j o' Hne Hj Hb Hpr.
    rewrite updated_row_buyer in Hb. rewrite updated_row_product in Hpr.
    by apply Hne, (Huniq j oid o' o0).
Qed.

Lemma one_order_per_pair_kept_witness :
  one_order_per_pair shop_offered ∧
  Order_objects (run PENDING (Create 3 7 (Some 90%Z)) shop_offered).2
    = <[ 1 := mkOrder 7 3 2 OFFERED 90 ]> {[ 0 := mkOrder 7 1 2 OFFERED 80 ]} ∧
  one_order_per_pair (run PENDING (Create 3 7 (Some 90%Z)) shop_offered).2.
Proof.
  assert (Huniq : one_order_per_pair shop_offered).
  { intros i j o o' Hi Hj _ _. simpl in Hi, Hj.
    apply lookup_singleton_Some in Hi as [<- _].
    by apply lookup_singleton_Some in Hj as [<- _]. }
  split; [exact Huniq|]. split; [by vm_compute|].
  apply (one_order_per_pair_kept PENDING (Create 3 7 (Some 90%Z)) shop_offered
           (run PENDING (Create 3 7 (Some 90%Z)) shop_offered).1 _ Huniq).
  apply surjective_pairing.
Defined.

(** X14. The two roles are kept apart: for an actor who is not the vendor of
    the order the status of the payload makes no difference, and for an
    actor who is not its buyer the amount of the payload makes none, neither
    to the result nor to the store. *)
Theorem roles_are_separated actor oid st st' amt amt' db o :
  Order_objects db !! oid = Some o →
  (actor ≠ o_vendor o →
   UpdateOffer actor oid st amt db = UpdateOffer actor oid st' amt db) ∧
  (actor ≠ o_buyer o →
   UpdateOffer actor oid st amt db = UpdateOffer actor oid st amt' db).
Proof.
  intros Ho.
  destruct (Product_objects db !! o_product o) as [p|] eqn:Hp;
    [|by rewrite !(UpdateOffer_no_product _ _ _ _ _ o)].
  rewrite !(UpdateOffer_eq _ _ _ _ _ o p) by done.
  unfold update_outcome, updated_row. split.
  - intros Hv. by rewrite !(bool_decide_eq_false_2 (actor = o_vendor o)).
  - intros Hb. simpl.
    rewrite !(bool_decide_eq_false_2 (actor = o_buyer o)) by done.
    destruct (bool_decide (actor = o_vendor o)); simpl;
      by rewrite !(bool_decide_eq_false_2 (actor = o_buyer o)).
Qed.

Lemma roles_are_separated_witness :
  UpdateOffer 1 0 (Some ACCEPTED) (Some 90%Z) shop_offered
    = UpdateOffer 1 0 None (Some 90%Z) shop_offered ∧
  UpdateOffer 2 0 (Some DENIED) (Some 150%Z) shop_offered
    = UpdateOffer 2 0 (Some DENIED) None shop_offered.
Proof.
  assert (Ho : Order_objects shop_offered !! 0
               = Some (mkOrder 7 1 2 OFFERED 80)) by (by vm_compute).
  split.
  - apply (proj1 (roles_are_separated 1 0 (Some ACCEPTED) None (Some 90%Z)
                    None shop_offered _ Ho)). simpl. lia.
  - apply (proj2 (roles_are_separated 2 0 (Some DENIED) None (Some 150%Z)
                    None shop_offered _ Ho)). simpl. lia.
Defined.

(** X15. [update] does not move the order to the product of the payload, and
    it sets the flag [is_available] on two rows: on the product the payload
    names and on the product of the order.  When the payload names another
    product than the one of the order, both end with the flag of the new
    status. *)
Theorem update_flags_both_products user oid o vd db r db' pid q :
  update user (oid, o) vd db = (inr r, db') →
  d_product vd = Some (pid, q) →
  o_product r.2 = o_product o ∧
  p_is_available <$> Product_objects db' !! pid
    = Some (bool_decide (o_status r.2 ∈ available)) ∧
  p_is_available <$> Product_objects db' !! o_product o
    = Some (bool_decide (o_status r.2 ∈ available)).
Proof.
  intros Hrun Hvd.
  destruct (update_inr _ _ _ _ _ _ _ Hrun)
    as (pid0 & q0 & p & p' & Hvd0 & Hp & Hp').
  rewrite Hvd in Hvd0. injection Hvd0 as <- <-.
  rewrite (update_run _ _ _ _ _ pid q p p') in Hrun by done.
  simpl in Hrun. injection Hrun as <- <-. simpl.
  rewrite updated_row_product. split; [done|].
  rewrite lookup_insert_eq. split; [|done].
  rewrite lookup_insert. case_decide; [done|].
  by rewrite lookup_insert_eq.
Qed.

Lemma update_flags_both_products_witness :
  update 2 (0, mkOrder 7 1 2 OFFERED 80)
      (mkData (Some (8, mkProduct 50 true 2)) (Some 1) (Some ACCEPTED) None)
      shop_two
    = (inr (0, mkOrder 7 1 2 ACCEPTED 80),
       mkDB (<[ 8 := mkProduct 50 false 2 ]> {[ 7 := mkProduct 100 false 2 ]})
            {[ 0 := mkOrder 7 1 2 ACCEPTED 80 ]}) ∧
  p_is_available <$>
    Product_objects
      (mkDB (<[ 8 := mkProduct 50 false 2 ]> {[ 7 := mkProduct 100 false 2 ]})
            {[ 0 := mkOrder 7 1 2 ACCEPTED 80 ]}) !! 8 = Some false.
Proof.
  assert (Hrun : update 2 (0, mkOrder 7 1 2 OFFERED 80)
      (mkData (Some (8, mkProduct 50 true 2)) (Some 1) (Some ACCEPTED) None)
      shop_two
    = (inr (0, mkOrder 7 1 2 ACCEPTED 80),
       mkDB (<[ 8 := mkProduct 50 false 2 ]> {[ 7 := mkProduct 100 false 2 ]})
            {[ 0 := mkOrder 7 1 2 ACCEPTED 80 ]})) by (by vm_compute).
  split; [exact Hrun|].
  exact (proj1 (proj2 (update_flags_both_products _ _ _ _ _ _ _ 8
                         (mkProduct 50 true 2) Hrun eq_refl))).
Defined.

(** X16. A buyer's UpdateOffer that gets through sets the amount and derives
    the status from it alone, by the casts to [float]: OFFERED when the cast
    of the amount is below the one of the price, PROCESSING when the two are
    equal, whatever the status was (a DENIED order is open again) and
    whatever status the payload carries, also when the buyer is the vendor
    too. *)
Theorem buyer_update_recomputes_status oid st a db o p :
  Order_objects db !! oid = Some o →
  Product_objects db !! o_product o = Some p →
  p_is_available p = true →
  (float a ≤ float (p_price p))%Z →
  ∃ db',
    UpdateOffer (o_buyer o) oid st (Some a) db
      = (inr (oid, mkOrder (o_product o) (o_buyer o) (o_vendor o)
                     (if bool_decide (float a < float (p_price p))%Z
                      then OFFERED else PROCESSING) a), db').
Proof.
  intros Ho Hp Hav Hle. rewrite (UpdateOffer_eq _ _ _ _ _ o p) by done.
  unfold update_outcome.
  rewrite (bool_decide_eq_true_2 (o_buyer o = o_buyer o)) by done.
  rewrite (bool_decide_eq_false_2 (float (p_price p) < float a)%Z) by lia.
  rewrite Hav. eexists. f_equal. f_equal. f_equal.
  unfold updated_row.
  destruct (bool_decide (o_buyer o = o_vendor o)); simpl;
    rewrite (bool_decide_eq_true_2 (o_buyer o = o_buyer o)) by done; simpl;
    destruct (decide (float a < float (p_price p))%Z) as [Hlt|Hge].
  - rewrite (bool_decide_eq_true_2 _ Hlt). simpl.
    by rewrite (bool_decide_eq_false_2 (float a = float (p_price p))) by lia.
  - rewrite (bool_decide_eq_false_2 _ Hge). simpl.
    by rewrite (bool_decide_eq_true_2 (float a = float (p_price p))) by lia.
  - rewrite (bool_decide_eq_true_2 _ Hlt). simpl.
    by rewrite (bool_decide_eq_false_2 (float a = float (p_price p))) by lia.
  - rewrite (bool_decide_eq_false_2 _ Hge). simpl.
    by rewrite (bool_decide_eq_true_2 (float a = float (p_price p))) by lia.
Qed.

Lemma buyer_update_recomputes_status_witness :
  ∃ db',
    UpdateOffer 1 0 (Some COMPLETED) (Some 80%Z) shop_denied
      = (inr (0, mkOrder 7 1 2 OFFERED 80), db').
Proof.
  assert (Hlt : bool_decide (float 80 < float 100)%Z = true)
    by (by vm_compute).
  destruct (buyer_update_recomputes_status 0 (Some COMPLETED) 80 shop_denied
              (mkOrder 7 1 2 DENIED 80) (mkProduct 100 true 2))
    as (db' & Hrun).
  - by vm_compute.
  - by vm_compute.
  - done.
  - by vm_compute.
  - simpl in Hrun. rewrite Hlt in Hrun. exists db'. exact Hrun.
Defined.

(** X17. The vendor of an order, when not its buyer, sets the status to any
    value from any value, as long as the product is available: there is no
    transition that is refused, the amount of the payload is ignored, and
    the product gets the flag of the new status. *)
Theorem vendor_sets_any_status oid st amt db o p :
  Order_objects db !! oid = Some o →
  Product_objects db !! o_product o = Some p →
  p_is_available p = true →
  o_vendor o ≠ o_buyer o →
  UpdateOffer (o_vendor o) oid (Some st) amt db
    = (inr (oid, set_status st o),
       mkDB (<[o_product o :=
                set_is_available (bool_decide (st ∈ available)) p]>
               (Product_objects db))
            (<[oid := set_status st o]> (Order_objects db))).
Proof.
  intros Ho Hp Hav Hne. rewrite (UpdateOffer_eq _ _ _ _ _ o p) by done.
  unfold update_outcome, updated_row. simpl.
  rewrite !(bool_decide_eq_false_2 (o_vendor o = o_buyer o)) by done.
  rewrite (bool_decide_eq_true_2 (o_vendor o = o_vendor o)) by done.
  simpl. rewrite (bool_decide_eq_false_2 (o_vendor o = o_buyer o)) by done.
  by rewrite Hav.
Qed.

Lemma vendor_sets_any_status_witness :
  UpdateOffer 2 0 (Some COMPLETED) (Some 150%Z) shop_denied
    = (inr (0, mkOrder 7 1 2 COMPLETED 80),
       mkDB {[ 7 := mkProduct 100 false 2 ]}
            {[ 0 := mkOrder 7 1 2 COMPLETED 80 ]}).
Proof.
  etrans.
  - apply (vendor_sets_any_status 0 COMPLETED (Some 150%Z) shop_denied
             (mkOrder 7 1 2 DENIED 80) (mkProduct 100 true 2));
      [by vm_compute | by vm_compute | done | simpl; lia].
  - by vm_compute.
Defined.

Lemma CreateOffer_on_unavailable ds B P p amt db :
  Product_objects db !! P = Some p →
  p_is_available p = false →
  ∃ e,
    CreateOffer ds B P amt db = (inl e, db) ∧
    (¬ (∃ i o, Order_objects db !! i = Some o ∧
               o_buyer o = B ∧ o_product o = P) →
     ∀ a, amt = Some a → (a ≤ p_price p)%Z → e = NotFound).
Proof.
  intros Hp Hav. rewrite (CreateOffer_eq _ _ _ _ _ p) by done.
  unfold create_outcome. rewrite Hav.
  case_bool_decide as Hex; [by eexists|].
  destruct amt as [a|]; [|by eexists; split; [done|intros _ ? [=]]].
  case_bool_decide as Hgt; eexists; (split; [done|]).
  - intros _ ? [= <-] Hle. pose proof (float_mono _ _ Hle). lia.
  - done.
Qed.

(** X18. No offer can be opened on an unavailable product: CreateOffer fails
    and changes nothing, with NotFound when the buyer has no order on the
    product and the amount does not exceed the price. *)
Theorem CreateOffer_unavailable ds B P p amt db :
  Product_objects db !! P = Some p →
  p_is_available p = false →
  ∃ e,
    CreateOffer ds B P amt db = (inl e, db) ∧
    (¬ (∃ i o, Order_objects db !! i = Some o ∧
               o_buyer o = B ∧ o_product o = P) →
     ∀ a, amt = Some a → (a ≤ p_price p)%Z → e = NotFound).
Proof. apply CreateOffer_on_unavailable. Qed.

Lemma CreateOffer_unavailable_witness :
  ∃ e,
    CreateOffer PENDING 3 7 (Some 90%Z) shop_sold = (inl e, shop_sold) ∧
    (¬ (∃ i o, Order_objects shop_sold !! i = Some o ∧
               o_buyer o = 3 ∧ o_product o = 7) →
     ∀ a, Some 90%Z = Some a → (a ≤ 100)%Z → e = NotFound).
Proof.
  apply (CreateOffer_unavailable PENDING 3 7 (mkProduct 100 false 2)
           (Some 90%Z) shop_sold); by vm_compute.
Defined.

(** The order [id] is on product [k], which is unavailable. *)
Lemma closed_step ds op db res db' id k :
  (∃ o p, Order_objects db !! id = Some o ∧ o_product o = k ∧
          Product_objects db !! k = Some p ∧ p_is_available p = false) →
  run ds op db = (res, db') →
  ∃ o p, Order_objects db' !! id = Some o ∧ o_product o = k ∧
         Product_objects db' !! k = Some p ∧ p_is_available p = false.
Proof.
  intros (o & p & Ho & Hk & Hp & Hav) Hrun.
  assert (Hp' : Product_objects db' !! k = Some p).
  { destruct (run_products _ _ _ _ _ k Hrun)
      as [->|(o0 & p0 & _ & _ & Hp0 & Hav0 & _)]; [done|].
    rewrite Hp in Hp0. injection Hp0 as <-. congruence. }
  destruct res as [e|r].
  { rewrite (run_inl _ _ _ _ _ Hrun). by exists o, p. }
  destruct op as [actor pid amt|actor oid st amt]; simpl in Hrun.
  - destruct (CreateOffer_inr _ _ _ _ _ _ _ Hrun)
      as (p0 & a & _ & _ & _ & _ & Hr & Hdb).
    exists o, p. split; [|by rewrite Hp'].
    rewrite Hdb, Hr. simpl. rewrite lookup_insert_ne; [exact Ho|].
    intros Heq. pose proof (fresh_order_key db) as Hfresh.
    rewrite Heq in Hfresh. congruence.
  - destruct (UpdateOffer_inr _ _ _ _ _ _ _ Hrun)
      as (o0 & p0 & Ho0 & _ & _ & _ & Hr & Hdb).
    destruct (decide (oid = id)) as [->|Hne].
    + rewrite Ho in Ho0. injection Ho0 as <-.
      exists r.2, p. split; [by rewrite Hdb; simpl; rewrite lookup_insert_eq|].
      split; [|by rewrite Hp'].
      rewrite Hr. simpl. by rewrite updated_row_product.
    + exists o, p. split; [|by rewrite Hp'].
      rewrite Hdb. simpl. by rewrite lookup_insert_ne.
Qed.

Lemma closed_run_all ds ops db id k :
  (∃ o p, Order_objects db !! id = Some o ∧ o_product o = k ∧
          Product_objects db !! k = Some p ∧ p_is_available p = false) →
  ∃ o p, Order_objects (run_all ds ops db) !! id = Some o ∧ o_product o = k ∧
         Product_objects (run_all ds ops db) !! k = Some p ∧
         p_is_available p = false.
Proof.
  revert db. induction ops as [|op ops IH]; intros db Hclosed; [done|].
  simpl. apply IH.
  apply (closed_step ds op db (run ds op db).1 _ id k Hclosed).
  apply surjective_pairing.
Qed.

(** X19. Once a request has returned an order whose status is in [sold], the
    negotiation on its product is closed for the two operations: whatever
    requests are issued afterwards, on this or on other orders and
    products, every UpdateOffer on that order and every CreateOffer on that
    product fails and changes nothing. *)
Theorem sold_order_is_locked ds op db r db1 ops :
  run ds op db = (inr r, db1) →
  o_status r.2 ∈ sold →
  (∀ actor st amt, ∃ e,
     UpdateOffer actor r.1 st amt (run_all ds ops db1)
       = (inl e, run_all ds ops db1)) ∧
  (∀ B amt, ∃ e,
     CreateOffer ds B (o_product r.2) amt (run_all ds ops db1)
       = (inl e, run_all ds ops db1)).
Proof.
  intros Hrun Hsold.
  assert (Order_objects db1 !! r.1 = Some r.2 ∧
          ∃ p, Product_objects db1 !! o_product r.2 = Some p ∧
               p_is_available p = bool_decide (o_status r.2 ∈ available))
    as [Hstored (p & Hp & Hflag)].
  { destruct op; simpl in Hrun.
    - by eapply CreateOffer_reconciles.
    - by eapply UpdateOffer_reconciles. }
  rewrite status_sold_or_available, (bool_decide_eq_true_2 _ Hsold) in Hflag.
  simpl in Hflag.
  destruct (closed_run_all ds ops db1 r.1 (o_product r.2))
    as (o2 & p2 & Ho2 & Hk2 & Hp2 & Hav2); [by exists r.2, p|].
  split.
  - intros actor st amt.
    rewrite (UpdateOffer_eq _ _ _ _ _ o2 p2) by (by rewrite ?Hk2).
    unfold update_outcome. rewrite Hav2.
    destruct (bool_decide (actor = o_buyer o2)); [|by eexists].
    destruct amt as [a|]; [|by eexists].
    destruct (bool_decide (float (p_price p2) < float a)%Z); by eexists.
  - intros B amt.
    destruct (CreateOffer_on_unavailable ds B _ p2 amt _ Hp2 Hav2)
      as (e & He & _).
    by exists e.
Qed.

Lemma sold_order_is_locked_witness :
  (∀ actor st amt, ∃ e,
     UpdateOffer actor 0 st amt
         (run_all PENDING [Create 3 8 (Some 50%Z); Update 2 0 (Some DENIED) None]
            (run PENDING (Update 2 0 (Some ACCEPTED) None) shop_two).2)
       = (inl e,
          run_all PENDING [Create 3 8 (Some 50%Z); Update 2 0 (Some DENIED) None]
            (run PENDING (Update 2 0 (Some ACCEPTED) None) shop_two).2)) ∧
  (∀ B amt, ∃ e,
     CreateOffer PENDING B 7 amt
         (run_all PENDING [Create 3 8 (Some 50%Z); Update 2 0 (Some DENIED) None]
            (run PENDING (Update 2 0 (Some ACCEPTED) None) shop_two).2)
       = (inl e,
          run_all PENDING [Create 3 8 (Some 50%Z); Update 2 0 (Some DENIED) None]
            (run PENDING (Update 2 0 (Some ACCEPTED) None) shop_two).2)).
Proof.
  apply (sold_order_is_locked PENDING (Update 2 0 (Some ACCEPTED) None)
           shop_two (0, mkOrder 7 1 2 ACCEPTED 80)
           (run PENDING (Update 2 0 (Some ACCEPTED) None) shop_two).2
           [Create 3 8 (Some 50%Z); Update 2 0 (Some DENIED) None]).
  - by vm_compute.
  - apply (bool_decide_unpack _). by vm_compute.
Defined.
